(** * memory_sync: a shallow embedding of [scripts/memory_sync.py]

    The script keeps a JSON "memory" document on disk, appends entries to
    it, merges the entries of a second document into it and writes it
    back with a backup of the previous file.

    The embedding follows the Python text function by function.  Python
    values are the values [json.load] can produce; every operation that
    can raise in Python returns an [outcome]; the file system and the
    clock are threaded through a small state-and-exception monad. *)

From Stdlib Require Import String Ascii ZArith List Bool Sorted Permutation.
From Stdlib Require Import DecimalString DecimalNat.
From stdpp Require Import gmap strings list.
Import ListNotations.

Local Open Scope string_scope.
Local Open Scope list_scope.

Set Warnings "-register-all".

(** ** Python values *)

(** The values [json.load] builds: [None], [bool], [int], [str], [list]
    and [dict].  A [dict] keeps its insertion order, so it is an
    association list; the dictionaries the parser builds have no repeated
    key.  A [str] is a [string] with one character per element.  Floats
    are left out: the script never computes a number. *)
Inductive json : Type :=
| JNull
| JBool (b : bool)
| JInt (n : Z)
| JStr (s : string)
| JArr (items : list json)
| JObj (fields : list (string * json)).

(** The exceptions the script can meet.  All of them derive from
    [Exception]; the last four are [OSError]s. *)
Inductive pyexn : Type :=
| KeyError
| TypeError
| AttributeError
| JSONDecodeError
| UnicodeDecodeError
| FileNotFoundError
| PermissionError
| IsADirectoryError
| OSError.

Inductive outcome (A : Type) : Type :=
| Return (a : A)
| Raise (e : pyexn).
Arguments Return {A} a.
Arguments Raise {A} e.

Definition obind {A B} (x : outcome A) (f : A -> outcome B) : outcome B :=
  match x with
  | Return a => f a
  | Raise e => Raise e
  end.

Declare Scope py_scope.
Delimit Scope py_scope with py.
Notation "x <-! c ;; k" := (obind c (fun x => k))
  (at level 100, c at next level, right associativity) : py_scope.
Local Open Scope py_scope.

(** *** Dictionaries *)

Fixpoint dict_get (k : string) (d : list (string * json)) : option json :=
  match d with
  | [] => None
  | (k', v) :: d' => if String.eqb k k' then Some v else dict_get k d'
  end.

(** [d[k] = v]: an existing key keeps its place, a new key goes last. *)
Fixpoint dict_set (k : string) (v : json) (d : list (string * json))
  : list (string * json) :=
  match d with
  | [] => [(k, v)]
  | (k', v') :: d' =>
      if String.eqb k k' then (k', v) :: d' else (k', v') :: dict_set k v d'
  end.

(** [{**a, **b}]: the items of [b] are stored into [a] one by one. *)
Definition dict_update (a b : list (string * json)) : list (string * json) :=
  fold_left (fun acc kv => dict_set (fst kv) (snd kv) acc) b a.

(** [x[k]] for a string key [k]. *)
Definition py_getitem (x : json) (k : string) : outcome json :=
  match x with
  | JObj d => match dict_get k d with
              | Some v => Return v
              | None => Raise KeyError
              end
  | _ => Raise TypeError
  end.

(** [x.get(k)] and [x.get(k, default)]: only a dict has the method. *)
Definition py_get (x : json) (k : string) : outcome (option json) :=
  match x with
  | JObj d => Return (dict_get k d)
  | _ => Raise AttributeError
  end.

Definition py_get_default (x : json) (k : string) (default : json)
  : outcome json :=
  match x with
  | JObj d => Return (match dict_get k d with Some v => v | None => default end)
  | _ => Raise AttributeError
  end.

(** [x[k] = v] for a string key [k]. *)
Definition py_setitem (x : json) (k : string) (v : json) : outcome json :=
  match x with
  | JObj d => Return (JObj (dict_set k v d))
  | _ => Raise TypeError
  end.

Fixpoint chars (s : string) : list json :=
  match s with
  | EmptyString => []
  | String c s' => JStr (String c EmptyString) :: chars s'
  end.

(** [for e in x]: a list gives its items, a dict its keys, a str its
    characters; the other values are not iterable. *)
Definition py_iter (x : json) : outcome (list json) :=
  match x with
  | JArr l => Return l
  | JObj d => Return (map (fun kv => JStr (fst kv)) d)
  | JStr s => Return (chars s)
  | _ => Raise TypeError
  end.

(** [x.startswith(p)]. *)
Definition py_startswith (x : json) (p : string) : outcome bool :=
  match x with
  | JStr s => Return (String.prefix p s)
  | _ => Raise AttributeError
  end.

(** [x.append(v)]: the list after the call. *)
Definition py_append (x : json) (v : json) : outcome json :=
  match x with
  | JArr l => Return (JArr (l ++ [v]))
  | _ => Raise AttributeError
  end.

(** [hash(x)] succeeds: lists and dicts are unhashable. *)
Definition py_hashable (x : json) : outcome unit :=
  match x with
  | JArr _ | JObj _ => Raise TypeError
  | _ => Return tt
  end.

(** [x == y].  [True == 1]; dicts compare without regard to order. *)
Fixpoint py_eq (x y : json) : bool :=
  match x, y with
  | JNull, JNull => true
  | JBool a, JBool b => Bool.eqb a b
  | JBool a, JInt n => Z.eqb (Z.b2z a) n
  | JInt n, JBool a => Z.eqb n (Z.b2z a)
  | JInt a, JInt b => Z.eqb a b
  | JStr a, JStr b => String.eqb a b
  | JArr a, JArr b =>
      (fix go (a b : list json) : bool :=
         match a, b with
         | [], [] => true
         | x' :: a', y' :: b' => py_eq x' y' && go a' b'
         | _, _ => false
         end) a b
  | JObj a, JObj b =>
      Nat.eqb (length a) (length b) &&
      (fix go (a : list (string * json)) : bool :=
         match a with
         | [] => true
         | (k, v) :: a' =>
             match dict_get k b with
             | Some v' => py_eq v v'
             | None => false
             end && go a'
         end) a
  | _, _ => false
  end.

(** [x < y].  Numbers with numbers, strings with strings, lists
    lexicographically; everything else is a [TypeError]. *)
Fixpoint py_lt (x y : json) : outcome bool :=
  match x, y with
  | JStr a, JStr b => Return (String.ltb a b)
  | JInt a, JInt b => Return (Z.ltb a b)
  | JInt a, JBool b => Return (Z.ltb a (Z.b2z b))
  | JBool a, JInt b => Return (Z.ltb (Z.b2z a) b)
  | JBool a, JBool b => Return (Z.ltb (Z.b2z a) (Z.b2z b))
  | JArr a, JArr b =>
      (fix go (a b : list json) : outcome bool :=
         match a, b with
         | [], [] => Return false
         | [], _ :: _ => Return true
         | _ :: _, [] => Return false
         | x' :: a', y' :: b' =>
             if py_eq x' y' then go a' b' else py_lt x' y'
         end) a b
  | _, _ => Raise TypeError
  end.

(** [x in s] for a set [s], kept as the list of its members. *)
Definition py_in (x : json) (s : list json) : bool :=
  existsb (py_eq x) s.

(** *** Sorting *)

(** [l.sort(key=f)] computes every key first, then sorts the items by
    [<] on the keys, stably.  The sort is an insertion sort: on keys that
    [<] orders totally a stable sort has one result, the one CPython
    computes; a comparison that raises ends the sort with its error. *)
Fixpoint sort_insert (kx : json * json) (sorted : list (json * json))
  : outcome (list (json * json)) :=
  match sorted with
  | [] => Return [kx]
  | ky :: rest =>
      b <-! py_lt (fst ky) (fst kx) ;;
      if (b : bool) then
        r <-! sort_insert kx rest ;;
        Return (ky :: r)
      else Return (kx :: ky :: rest)
  end.

Fixpoint sort_keyed (l : list (json * json)) : outcome (list (json * json)) :=
  match l with
  | [] => Return []
  | kx :: l' =>
      s <-! sort_keyed l' ;;
      sort_insert kx s
  end.

Fixpoint map_outcome {A B} (f : A -> outcome B) (l : list A)
  : outcome (list B) :=
  match l with
  | [] => Return []
  | x :: l' =>
      y <-! f x ;;
      ys <-! map_outcome f l' ;;
      Return (y :: ys)
  end.

Definition py_sort (key : json -> outcome json) (l : list json)
  : outcome (list json) :=
  keyed <-! map_outcome (fun x => k <-! key x ;; Return (k, x)) l ;;
  sorted <-! sort_keyed keyed ;;
  Return (map snd sorted).

(** *** Formatting *)

Definition str_of_nat (n : nat) : string :=
  NilZero.string_of_uint (Nat.to_uint n).

Fixpoint zeros (n : nat) : string :=
  match n with
  | O => EmptyString
  | S n' => String "0" (zeros n')
  end.

(** [f"{n:0wd}"]: at least [w] digits, zeros in front. *)
Definition fmt_d (w n : nat) : string :=
  let s := str_of_nat n in
  zeros (w - String.length s) +:+ s.

(** [s[:n]]. *)
Definition py_slice_to (n : nat) (s : string) : string :=
  String.substring 0 n s.

(** ** The clock *)

(** A naive [datetime] as [datetime.utcnow()] returns it. *)
Record datetime : Type := mkDatetime {
  year : nat; month : nat; day : nat;
  hour : nat; minute : nat; second : nat; microsecond : nat
}.

(** [dt.strftime('%Y%m%d')]. *)
Definition strftime_Ymd (dt : datetime) : string :=
  fmt_d 4 (year dt) +:+ fmt_d 2 (month dt) +:+ fmt_d 2 (day dt).

(** [dt.isoformat()]: the fraction is printed only when it is not zero. *)
Definition isoformat (dt : datetime) : string :=
  fmt_d 4 (year dt) +:+ "-" +:+ fmt_d 2 (month dt) +:+ "-" +:+
  fmt_d 2 (day dt) +:+ "T" +:+ fmt_d 2 (hour dt) +:+ ":" +:+
  fmt_d 2 (minute dt) +:+ ":" +:+ fmt_d 2 (second dt) +:+
  (if Nat.eqb (microsecond dt) 0 then "" else "." +:+ fmt_d 6 (microsecond dt)).

(** ** The world: files, I/O errors and the clock *)

(** What a regular file holds, as [json.load] sees it: a text that is
    not JSON (an empty or cut-off file included), or the text of a value.
    [json.dump] followed by [json.load] gives the value back. *)
Inductive file_text : Type :=
| Malformed
| JsonText (v : json).

(** The system calls of the script.  Whatever makes one fail that is not
    in [files] (a directory in the way, permissions, a full disk, bytes
    that are not UTF-8) is decided by [fault]. *)
Inductive syscall : Type :=
| SysRead (path : string)
| SysRename (src dst : string)
| SysOpenWrite (path : string)
| SysWrite (path : string).

Record world : Type := mkWorld {
  files : gmap string file_text;
  fault : syscall -> option pyexn;
  clock : nat -> datetime;
  ticks : nat
}.

Definition with_files (w : world) (fs : gmap string file_text) : world :=
  mkWorld fs (fault w) (clock w) (ticks w).

(** A computation reads and changes the world and returns or raises;
    the world it leaves is kept when it raises. *)
Definition M (A : Type) : Type := world -> outcome A * world.

Definition ret {A} (a : A) : M A := fun w => (Return a, w).
Definition bind {A B} (c : M A) (f : A -> M B) : M B :=
  fun w => match c w with
           | (Return a, w') => f a w'
           | (Raise e, w') => (Raise e, w')
           end.
Definition lift {A} (x : outcome A) : M A := fun w => (x, w).

(** [try: c except (...) as e: h e], for the exceptions [catches] accepts. *)
Definition try_except {A} (c : M A) (catches : pyexn -> bool) (h : pyexn -> M A)
  : M A :=
  fun w => match c w with
           | (Return a, w') => (Return a, w')
           | (Raise e, w') => if catches e then h e w' else (Raise e, w')
           end.

Notation "x <- c ;; k" := (bind c (fun x => k))
  (at level 100, c at next level, right associativity) : py_scope.
Notation "c ;;; k" := (bind c (fun _ => k))
  (at level 100, right associativity) : py_scope.

(** [datetime.utcnow()]: each call reads the clock once. *)
Definition tick (w : world) : world :=
  mkWorld (files w) (fault w) (clock w) (S (ticks w)).

Definition now_of (w : world) : datetime := clock w (ticks w).

Definition utcnow : M datetime := fun w => (Return (now_of w), tick w).

Definition syscall_check (c : syscall) : M unit :=
  fun w => match fault w c with
           | Some e => (Raise e, w)
           | None => (Return tt, w)
           end.

(** [with open(path, 'r') as f: json.load(f)]. *)
Definition read_json (path : string) : M json :=
  syscall_check (SysRead path) ;;;
  fun w => match files w !! path with
           | None => (Raise FileNotFoundError, w)
           | Some Malformed => (Raise JSONDecodeError, w)
           | Some (JsonText v) => (Return v, w)
           end.

(** [os.path.exists(path)]. *)
Definition os_path_exists (path : string) : M bool :=
  fun w => (Return (bool_decide (is_Some (files w !! path))), w).

(** [os.rename(src, dst)]: [dst] is replaced when it exists. *)
Definition os_rename (src dst : string) : M unit :=
  syscall_check (SysRename src dst) ;;;
  fun w => match files w !! src with
           | None => (Raise FileNotFoundError, w)
           | Some t => (Return tt, with_files w (<[dst := t]> (delete src (files w))))
           end.

(** [with open(path, 'w') as f: json.dump(v, f, indent=2)]: opening
    creates or empties the file, then the text is written. *)
Definition write_json (path : string) (v : json) : M unit :=
  syscall_check (SysOpenWrite path) ;;;
  (fun w => (Return tt, with_files w (<[path := Malformed]> (files w)))) ;;;
  syscall_check (SysWrite path) ;;;
  fun w => (Return tt, with_files w (<[path := JsonText v]> (files w))).

(** ** The script *)

Definition campbell_motto : string := "Ne Obliviscaris".

(** [load_memory(file_path)]: [None] stands for Python's [None].  Only
    [FileNotFoundError] and [json.JSONDecodeError] are caught. *)
Definition load_memory (file_path : string) : M (option json) :=
  try_except
    (memory <- read_json file_path ;;
     motto <- lift (py_get memory "campbell_motto") ;;
     if match motto with
        | Some v => negb (py_eq v (JStr campbell_motto))
        | None => true
        end
     then ret None
     else ret (Some memory))
    (fun e => match e with
              | FileNotFoundError | JSONDecodeError => true
              | _ => false
              end)
    (fun _ => ret None).

(** [save_memory(memory, file_path)]: [except Exception] catches every
    error of the body. *)
Definition save_memory (memory : json) (file_path : string) : M bool :=
  try_except
    (present <- os_path_exists file_path ;;
     (if (present : bool)
      then os_rename file_path (file_path +:+ ".backup")
      else ret tt) ;;;
     write_json file_path memory ;;;
     ret true)
    (fun _ => true)
    (fun _ => ret false).

(** [{entry['id'] for entry in items}]. *)
Definition collect_ids (items : list json) : outcome (list json) :=
  map_outcome (fun entry =>
                 i <-! py_getitem entry "id" ;;
                 _ <-! py_hashable i ;;
                 Return i) items.

(** The [for entry in remote.get('entries', [])] loop of
    [merge_memories]; [local_ids] is computed before the loop and is not
    changed by it. *)
Fixpoint merge_loop (local_ids : list json) (remote_items : list json)
  (local : json) : outcome json :=
  match remote_items with
  | [] => Return local
  | entry :: rest =>
      i <-! py_getitem entry "id" ;;
      _ <-! py_hashable i ;;
      if py_in i local_ids then merge_loop local_ids rest local
      else
        l <-! py_getitem local "entries" ;;
        l' <-! py_append l entry ;;
        local' <-! py_setitem local "entries" l' ;;
        _ <-! py_getitem entry "source" ;;
        merge_loop local_ids rest local'
  end.

(** [lambda x: x['metadata']['timestamp']]. *)
Definition timestamp_key (x : json) : outcome json :=
  m <-! py_getitem x "metadata" ;;
  py_getitem m "timestamp".

(** [l.sort(key=...)] as a method call: only a list has it. *)
Definition py_sort_method (key : json -> outcome json) (l : json)
  : outcome json :=
  match l with
  | JArr items => s <-! py_sort key items ;; Return (JArr s)
  | _ => Raise AttributeError
  end.

Definition utc_stamp (dt : datetime) : json := JStr (isoformat dt +:+ "Z").

(** [merge_memories(local, remote)]: [local] is changed in place and
    returned; the result here is the changed [local]. *)
Definition merge_memories (local remote : json) : M json :=
  local_entries <- lift (py_get_default local "entries" (JArr [])) ;;
  local_items <- lift (py_iter local_entries) ;;
  local_ids <- lift (collect_ids local_items) ;;
  remote_entries <- lift (py_get_default remote "entries" (JArr [])) ;;
  remote_items <- lift (py_iter remote_entries) ;;
  local <- lift (merge_loop local_ids remote_items local) ;;
  l <- lift (py_getitem local "entries") ;;
  sorted <- lift (py_sort_method timestamp_key l) ;;
  local <- lift (py_setitem local "entries" sorted) ;;
  now <- utcnow ;;
  lift (py_setitem local "timestamp" (utc_stamp now)).

(** [[e['id'] for e in items if e['id'].startswith(today)]]. *)
Fixpoint ids_of_day (today : string) (items : list json)
  : outcome (list json) :=
  match items with
  | [] => Return []
  | e :: rest =>
      i <-! py_getitem e "id" ;;
      b <-! py_startswith i today ;;
      r <-! ids_of_day today rest ;;
      Return (if (b : bool) then i :: r else r)
  end.

(** [metadata or {}]: [None] and the empty dict both give [{}]. *)
Definition metadata_or_empty (metadata : option (list (string * json)))
  : list (string * json) :=
  match metadata with
  | Some d => d
  | None => []
  end.

(** [add_entry(memory, entry_type, content, source, metadata=None)]. *)
Definition add_entry (memory : json) (entry_type content source : string)
  (metadata : option (list (string * json))) : M json :=
  now <- utcnow ;;
  let today := strftime_Ymd now in
  entries <- lift (py_get_default memory "entries" (JArr [])) ;;
  items <- lift (py_iter entries) ;;
  existing_ids <- lift (ids_of_day today items) ;;
  let next_num := length existing_ids + 1 in
  let entry_id := today +:+ "-" +:+ fmt_d 3 next_num in
  stamp <- utcnow ;;
  let new_entry :=
    JObj [("id", JStr entry_id);
          ("type", JStr entry_type);
          ("content", JStr (py_slice_to 200 content));
          ("source", JStr source);
          ("metadata",
            JObj (dict_update [("timestamp", utc_stamp stamp)]
                              (metadata_or_empty metadata)))] in
  l <- lift (py_getitem memory "entries") ;;
  l' <- lift (py_append l new_entry) ;;
  memory <- lift (py_setitem memory "entries" l') ;;
  modified <- utcnow ;;
  lift (py_setitem memory "timestamp" (utc_stamp modified)).

(** The document [sync_with_remote] starts from when nothing was loaded. *)
Definition new_memory (now : datetime) : json :=
  JObj [("version", JStr "20260213-0.1");
        ("timestamp", utc_stamp now);
        ("campbell_motto", JStr campbell_motto);
        ("entries", JArr [])].

(** [sync_with_remote(local_path, remote_url, source_id)]. *)
Definition sync_with_remote (local_path remote_url source_id : string)
  : M bool :=
  loaded <- load_memory local_path ;;
  local_memory <- match loaded with
                  | Some m => ret m
                  | None => now <- utcnow ;; ret (new_memory now)
                  end ;;
  local_memory <- add_entry local_memory "action"
                    ("Memory sync attempted with " +:+ remote_url)
                    source_id
                    (Some [("sync_status", JStr "local_only");
                           ("remote_url", JStr remote_url)]) ;;
  saved <- save_memory local_memory local_path ;;
  if (saved : bool) then ret true else ret false.

(** ** Documents and entries *)

(** The fields the data model names, read off a Python value. *)
Definition entry_id (e : json) : option string :=
  match e with
  | JObj d => match dict_get "id" d with
              | Some (JStr i) => Some i
              | _ => None
              end
  | _ => None
  end.

Definition entry_timestamp (e : json) : option string :=
  match e with
  | JObj d => match dict_get "metadata" d with
              | Some (JObj m) => match dict_get "timestamp" m with
                                 | Some (JStr t) => Some t
                                 | _ => None
                                 end
              | _ => None
              end
  | _ => None
  end.

Definition entry_content (e : json) : option json :=
  match e with
  | JObj d => dict_get "content" d
  | _ => None
  end.

Definition has_field (k : string) (e : json) : bool :=
  match e with
  | JObj d => bool_decide (is_Some (dict_get k d))
  | _ => false
  end.

(** An Entry: a dict with a string [id], a [source] and a [metadata]
    dict with a string [timestamp]. *)
Definition is_entry (e : json) : bool :=
  bool_decide (is_Some (entry_id e)) && has_field "source" e &&
  bool_decide (is_Some (entry_timestamp e)).

Definition doc_entries (d : json) : option (list json) :=
  match d with
  | JObj f => match dict_get "entries" f with
              | Some (JArr l) => Some l
              | _ => None
              end
  | _ => None
  end.

Definition doc_field (k : string) (d : json) : option json :=
  match d with
  | JObj f => dict_get k f
  | _ => None
  end.

(** A MemoryDocument: a dict whose [entries] is a list of Entries. *)
Definition is_document (d : json) : bool :=
  match doc_entries d with
  | Some l => forallb is_entry l
  | None => false
  end.

(** A document carries the marker. *)
Definition has_marker (d : json) : bool :=
  match d with
  | JObj f => match dict_get "campbell_motto" f with
              | Some (JStr s) => String.eqb s campbell_motto
              | _ => false
              end
  | _ => false
  end.

Definition ids_of (l : list json) : list (option string) := map entry_id l.

(** Entry ids are unique within the document. *)
Definition unique_ids (d : json) : Prop :=
  exists l, doc_entries d = Some l /\ NoDup (ids_of l).

(** [a] may stand before [b] in a list sorted ascending by
    [metadata.timestamp]: Python's [not (b < a)] on the two strings. *)
Definition ts_le (a b : json) : Prop :=
  match entry_timestamp a, entry_timestamp b with
  | Some s, Some t => String.leb s t = true
  | _, _ => False
  end.

Definition sorted_by_timestamp (l : list json) : Prop := Sorted ts_le l.

Definition ts_of (e : json) : string := default "" (entry_timestamp e).
Definition id_of (e : json) : string := default "" (entry_id e).

(** The stable sort by timestamp that [list.sort] computes on Entries. *)
Fixpoint insert_ts (x : json) (l : list json) : list json :=
  match l with
  | [] => [x]
  | y :: r => if String.ltb (ts_of y) (ts_of x) then y :: insert_ts x r
              else x :: y :: r
  end.

Fixpoint sort_ts (l : list json) : list json :=
  match l with
  | [] => []
  | x :: r => insert_ts x (sort_ts r)
  end.

(** The per-day sequence number of an id [<date>-<digits>]: the digits
    after the date and the dash, read in base ten. *)
Fixpoint digits_value (acc : nat) (s : string) : option nat :=
  match s with
  | EmptyString => Some acc
  | String c s' =>
      let n := nat_of_ascii c in
      if (48 <=? n)%nat && (n <=? 57)%nat
      then digits_value (10 * acc + (n - 48)) s'
      else None
  end.

Definition day_sequence (today : string) (i : string) : option nat :=
  if String.prefix (today +:+ "-") i
  then
    let rest := String.substring (String.length today + 1)
                  (String.length i - (String.length today + 1)) i in
    match rest with
    | EmptyString => None
    | _ => digits_value 0 rest
    end
  else None.

(** ** What the script computes on documents *)

Definition keyed (e : json) : json * json := (JStr (ts_of e), e).

(** The ids of [l] already hold the id of [e]. *)
Definition known (l : list json) (e : json) : bool :=
  existsb (String.eqb (id_of e)) (map id_of l).

(** The entries of [r] that the loop of [merge_memories] appends. *)
Definition new_entries (l r : list json) : list json :=
  List.filter (fun e => negb (known l e)) r.

Definition id_values (l : list json) : list json :=
  map (fun e => JStr (id_of e)) l.

(** The entries of [merge_memories(local, remote)]. *)
Definition merged (l r : list json) : list json :=
  sort_ts (l ++ new_entries l r).

(** The entries of [l] whose id starts with [today]. *)
Definition of_day (today : string) (l : list json) : list json :=
  List.filter (fun e => String.prefix today (id_of e)) l.

(** The id [add_entry] gives its entry. *)
Definition next_id (today : string) (l : list json) : string :=
  today +:+ "-" +:+ fmt_d 3 (length (of_day today l) + 1).

(** The entry [add_entry] builds. *)
Definition made_entry (entry_id entry_type content source : string)
  (stamp : datetime) (metadata : option (list (string * json))) : json :=
  JObj [("id", JStr entry_id);
        ("type", JStr entry_type);
        ("content", JStr (py_slice_to 200 content));
        ("source", JStr source);
        ("metadata",
          JObj (dict_update [("timestamp", utc_stamp stamp)]
                            (metadata_or_empty metadata)))].

(** ** Example data *)

(** 13 February 2026, 12:00:00.000001 UTC, at every reading. *)
Definition noon : datetime := mkDatetime 2026 2 13 12 0 0 1.

(** An empty disk on which nothing fails. *)
Definition quiet : world := mkWorld ∅ (fun _ => None) (fun _ => noon) 0.

Definition sample_entry (i t : string) : json :=
  JObj [("id", JStr i); ("type", JStr "note"); ("content", JStr "remember");
        ("source", JStr "heron-01");
        ("metadata", JObj [("timestamp", JStr t)])].

Definition sample_doc (l : list json) : json :=
  JObj [("version", JStr "20260213-0.1");
        ("timestamp", JStr "2026-02-13T00:00:00Z");
        ("campbell_motto", JStr campbell_motto);
        ("entries", JArr l)].

Ltac unique_ids_of l :=
  exists l; split; [reflexivity|];
  apply (bool_decide_unpack _); vm_compute; reflexivity.

Ltac not_unique_ids :=
  let l := fresh "l" in let E := fresh "E" in let H := fresh "H" in
  intros (l & E & H); vm_compute in E; injection E as <-;
  revert H; apply (bool_decide_unpack _); vm_compute; reflexivity.

(** A disk like [w]'s where the system call [c] fails with [e]. *)
Definition failing (c : syscall -> bool) (e : pyexn) (w : world) : world :=
  mkWorld (files w) (fun s => if c s then Some e else fault w s)
    (clock w) (ticks w).

Definition opens_for_writing (path : string) (c : syscall) : bool :=
  match c with
  | SysOpenWrite p => String.eqb p path
  | _ => false
  end.


Definition is_object (v : json) : bool :=
  match v with
  | JObj _ => true
  | _ => false
  end.

(** ** The command line *)

(** [main()] run with [sys.argv = argv]: the status [sys.exit] ends the
    process with.  An exception that [sync_with_remote] lets through is
    not caught here either. *)
Definition main (argv : list string) : M nat :=
  if Nat.ltb (length argv) 3 then ret 1
  else
    let local_path := nth 1 argv "" in
    let remote_url := nth 2 argv "" in
    let source_id :=
      if Nat.ltb 3 (length argv) then nth 3 argv "" else "heron-local" in
    success <- sync_with_remote local_path remote_url source_id ;;
    ret (if (success : bool) then 0 else 1).

(** The id of [e] is a string that one of the entries of [l] has. *)
Definition has_known_id (l : list json) (e : json) : bool :=
  match entry_id e with
  | Some i => existsb (String.eqb i) (map id_of l)
  | None => false
  end.

(** The [metadata] of an entry. *)
Definition entry_metadata (e : json) : option (list (string * json)) :=
  match e with
  | JObj d => match dict_get "metadata" d with
              | Some (JObj m) => Some m
              | _ => None
              end
  | _ => None
  end.

(** The [id] of [e] is a string; nothing else is asked of [e]. *)
Definition has_string_id (e : json) : bool :=
  bool_decide (is_Some (entry_id e)).

(** None of the system calls a sync of [path] makes fails in [w]. *)
Definition unfailing (w : world) (path : string) : Prop :=
  fault w (SysRead path) = None /\
  fault w (SysRename path (path +:+ ".backup")) = None /\
  fault w (SysOpenWrite path) = None /\
  fault w (SysWrite path) = None.

(** The entry by which [sync_with_remote] records its attempt. *)
Definition sync_entry (entry_id url source : string) (stamp : datetime)
  : json :=
  made_entry entry_id "action" ("Memory sync attempted with " +:+ url) source
    stamp (Some [("sync_status", JStr "local_only"); ("remote_url", JStr url)]).

(** * Properties *)

(** ** Dictionaries *)

Lemma dict_get_set_eq k v d : dict_get k (dict_set k v d) = Some v.
Proof.
  induction d as [|[k' v'] d IH]; simpl.
  - by rewrite String.eqb_refl.
  - destruct (String.eqb k k') eqn:E; simpl; rewrite E; auto.
Qed.

Lemma dict_get_set_ne k k' v d :
  k <> k' -> dict_get k' (dict_set k v d) = dict_get k' d.
Proof.
  intros Hne. induction d as [|[k0 v0] d IH]; simpl.
  - destruct (String.eqb_spec k' k); congruence.
  - destruct (String.eqb_spec k k0) as [->|]; simpl.
    + destruct (String.eqb_spec k' k0); congruence.
    + by rewrite IH.
Qed.

Lemma dict_set_set k v v' d :
  dict_set k v' (dict_set k v d) = dict_set k v' d.
Proof.
  induction d as [|[k0 v0] d IH]; simpl.
  - by rewrite String.eqb_refl.
  - destruct (String.eqb k k0) eqn:E; simpl; rewrite E; congruence.
Qed.

Lemma dict_set_same k v d : dict_get k d = Some v -> dict_set k v d = d.
Proof.
  induction d as [|[k0 v0] d IH]; simpl; [done|].
  destruct (String.eqb_spec k k0) as [->|]; intros H.
  - congruence.
  - by rewrite IH.
Qed.

(** ** What the accessors give on Entries *)

Lemma is_entry_inv e :
  is_entry e = true ->
  exists d m src,
    e = JObj d /\
    dict_get "id" d = Some (JStr (id_of e)) /\
    dict_get "source" d = Some src /\
    dict_get "metadata" d = Some (JObj m) /\
    dict_get "timestamp" m = Some (JStr (ts_of e)).
Proof.
  unfold is_entry, id_of, ts_of, has_field. intros H.
  apply andb_prop in H as [H Ht]. apply andb_prop in H as [Hi Hs].
  apply bool_decide_eq_true in Hi, Ht.
  destruct e as [| | | | |d]; try discriminate.
  apply bool_decide_eq_true in Hs. simpl in *.
  destruct (dict_get "id" d) as [[| | |i| |]|] eqn:Ei; try (by destruct Hi).
  destruct (dict_get "source" d) as [src|] eqn:Es; [|by destruct Hs].
  destruct (dict_get "metadata" d) as [[| | | | |m]|] eqn:Em;
    try (by destruct Ht).
  destruct (dict_get "timestamp" m) as [[| | |t| |]|] eqn:Et;
    try (by destruct Ht).
  by exists d, m, src.
Qed.

Lemma is_entry_id e : is_entry e = true -> entry_id e = Some (id_of e).
Proof.
  intros H. destruct (is_entry_inv e H) as (d & m & src & -> & Hi & _).
  simpl. by rewrite Hi.
Qed.

Lemma is_entry_timestamp e :
  is_entry e = true -> entry_timestamp e = Some (ts_of e).
Proof.
  intros H. destruct (is_entry_inv e H) as (d & m & src & -> & _ & _ & Hm & Ht).
  simpl. by rewrite Hm, Ht.
Qed.

Lemma timestamp_key_entry e :
  is_entry e = true -> timestamp_key e = Return (JStr (ts_of e)).
Proof.
  intros H. destruct (is_entry_inv e H) as (d & m & src & -> & _ & _ & Hm & Ht).
  unfold timestamp_key. simpl. rewrite Hm. simpl. by rewrite Ht.
Qed.

Lemma getitem_id_entry e :
  is_entry e = true -> py_getitem e "id" = Return (JStr (id_of e)).
Proof.
  intros H. destruct (is_entry_inv e H) as (d & m & src & -> & Hi & _).
  simpl. by rewrite Hi.
Qed.

Lemma getitem_source_entry e :
  is_entry e = true -> exists src, py_getitem e "source" = Return src.
Proof.
  intros H. destruct (is_entry_inv e H) as (d & m & src & -> & _ & Hs & _).
  exists src. simpl. by rewrite Hs.
Qed.

(** ** Sorting Entries *)

Lemma map_outcome_keyed l :
  forallb is_entry l = true ->
  map_outcome (fun x => k <-! timestamp_key x ;; Return (k, x)) l
  = Return (map keyed l).
Proof.
  induction l as [|e l IH]; simpl; [done|].
  intros H. apply andb_prop in H as [He Hl].
  rewrite timestamp_key_entry by done. simpl. by rewrite IH.
Qed.

Lemma sort_insert_keyed x l :
  sort_insert (keyed x) (map keyed l) = Return (map keyed (insert_ts x l)).
Proof.
  induction l as [|y l IH]; simpl; [done|].
  destruct (String.ltb (ts_of y) (ts_of x)); simpl; [|done].
  by rewrite IH.
Qed.

Lemma sort_keyed_keyed l :
  sort_keyed (map keyed l) = Return (map keyed (sort_ts l)).
Proof.
  induction l as [|x l IH]; simpl; [done|].
  rewrite IH. simpl. apply sort_insert_keyed.
Qed.

Lemma py_sort_entries l :
  forallb is_entry l = true -> py_sort timestamp_key l = Return (sort_ts l).
Proof.
  intros H. unfold py_sort. rewrite map_outcome_keyed by done. simpl.
  rewrite sort_keyed_keyed. simpl. f_equal.
  rewrite map_map. simpl. apply map_id.
Qed.

Lemma insert_ts_perm x l : Permutation (x :: l) (insert_ts x l).
Proof.
  induction l as [|y l IH]; simpl; [done|].
  destruct (String.ltb (ts_of y) (ts_of x)); [|done].
  rewrite perm_swap. by constructor.
Qed.

Lemma sort_ts_perm l : Permutation l (sort_ts l).
Proof.
  induction l as [|x l IH]; simpl; [done|].
  rewrite <- insert_ts_perm. by constructor.
Qed.

Lemma sort_ts_entries l :
  forallb is_entry l = true -> forallb is_entry (sort_ts l) = true.
Proof.
  rewrite !forallb_forall. intros H e He. apply H.
  eapply Permutation_in; [symmetry; apply sort_ts_perm|done].
Qed.

Lemma ltb_false_leb s t : String.ltb s t = false -> String.leb t s = true.
Proof.
  unfold String.ltb, String.leb. rewrite (String.compare_antisym s t).
  destruct (String.compare t s); simpl; done.
Qed.

Lemma ltb_true_leb s t : String.ltb s t = true -> String.leb s t = true.
Proof.
  unfold String.ltb, String.leb. destruct (String.compare s t); done.
Qed.

Lemma ts_le_entries a b :
  is_entry a = true -> is_entry b = true ->
  ts_le a b <-> String.leb (ts_of a) (ts_of b) = true.
Proof.
  intros Ha Hb. unfold ts_le.
  by rewrite (is_entry_timestamp a Ha), (is_entry_timestamp b Hb).
Qed.

Lemma insert_ts_sorted x l :
  is_entry x = true -> forallb is_entry l = true ->
  sorted_by_timestamp l -> sorted_by_timestamp (insert_ts x l).
Proof.
  unfold sorted_by_timestamp. intros Hx.
  induction l as [|y l IH]; simpl; intros Hl Hs.
  - repeat constructor.
  - apply andb_prop in Hl as [Hy Hl]. inversion Hs as [|? ? Hs' Hhd]; subst.
    destruct (String.ltb (ts_of y) (ts_of x)) eqn:E.
    + constructor; [by apply IH|].
      destruct l as [|z l]; simpl.
      * constructor. apply ts_le_entries; auto using ltb_true_leb.
      * destruct (String.ltb (ts_of z) (ts_of x)).
        -- constructor. by inversion Hhd.
        -- constructor. apply ts_le_entries; auto using ltb_true_leb.
    + constructor; [done|]. constructor.
      apply ts_le_entries; auto using ltb_false_leb.
Qed.

Lemma sort_ts_sorted l :
  forallb is_entry l = true -> sorted_by_timestamp (sort_ts l).
Proof.
  induction l as [|x l IH]; simpl; intros H.
  - constructor.
  - apply andb_prop in H as [Hx Hl].
    apply insert_ts_sorted; auto using sort_ts_entries.
Qed.

(** Sorting a sorted list of Entries changes nothing. *)
Lemma sort_ts_id l :
  forallb is_entry l = true -> sorted_by_timestamp l -> sort_ts l = l.
Proof.
  unfold sorted_by_timestamp.
  induction l as [|x l IH]; simpl; intros H Hs; [done|].
  apply andb_prop in H as [Hx Hl]. inversion Hs as [|? ? Hs' Hhd]; subst.
  rewrite IH by done. destruct l as [|y l]; simpl; [done|].
  simpl in Hl. apply andb_prop in Hl as [Hy _].
  inversion Hhd as [|? ? Hxy]; subst. apply ts_le_entries in Hxy; try done.
  unfold String.ltb. unfold String.leb in Hxy.
  rewrite (String.compare_antisym (ts_of y) (ts_of x)).
  destruct (String.compare (ts_of x) (ts_of y)); simpl; done.
Qed.

(** ** Merging *)

Lemma is_document_inv d :
  is_document d = true ->
  exists f l, d = JObj f /\ dict_get "entries" f = Some (JArr l) /\
              doc_entries d = Some l /\ forallb is_entry l = true.
Proof.
  unfold is_document. destruct d as [| | | | |f]; simpl; try discriminate.
  destruct (dict_get "entries" f) as [[| | | |l|]|] eqn:E; try discriminate.
  intros H. by exists f, l.
Qed.

Lemma collect_ids_entries l :
  forallb is_entry l = true -> collect_ids l = Return (id_values l).
Proof.
  unfold collect_ids, id_values.
  induction l as [|e l IH]; simpl; [done|].
  intros H. apply andb_prop in H as [He Hl].
  rewrite getitem_id_entry by done. simpl. by rewrite IH.
Qed.

Lemma py_in_id_values e l : py_in (JStr (id_of e)) (id_values l) = known l e.
Proof.
  unfold py_in, known, id_values. induction l as [|x l IH]; [done|].
  cbn [map existsb]. by rewrite IH.
Qed.

Lemma merge_loop_entries ids r : forall f l0,
  forallb is_entry r = true ->
  dict_get "entries" f = Some (JArr l0) ->
  merge_loop (id_values ids) r (JObj f)
  = Return (JObj (dict_set "entries" (JArr (l0 ++ new_entries ids r)) f)).
Proof.
  induction r as [|e r IH]; simpl; intros f l0 Hr Hf.
  - rewrite app_nil_r. by rewrite dict_set_same.
  - apply andb_prop in Hr as [He Hr].
    rewrite getitem_id_entry by done. simpl.
    rewrite py_in_id_values. unfold new_entries. simpl.
    destruct (known ids e); simpl.
    + by apply IH.
    + rewrite Hf. simpl.
      destruct (getitem_source_entry e He) as [src ->]. simpl.
      rewrite (IH _ (l0 ++ [e])); [|done|apply dict_get_set_eq].
      rewrite dict_set_set. unfold new_entries. by rewrite <- app_assoc.
Qed.

Lemma new_entries_entries l r :
  forallb is_entry r = true -> forallb is_entry (new_entries l r) = true.
Proof.
  rewrite !forallb_forall. intros H e He. apply H.
  unfold new_entries in He. apply filter_In in He. tauto.
Qed.

Lemma merge_memories_entries w local remote f l r :
  local = JObj f ->
  dict_get "entries" f = Some (JArr l) ->
  forallb is_entry l = true ->
  doc_entries remote = Some r ->
  forallb is_entry r = true ->
  merge_memories local remote w
  = (Return (JObj (dict_set "timestamp" (utc_stamp (now_of w))
                     (dict_set "entries" (JArr (merged l r)) f))),
     tick w).
Proof.
  intros -> Hf Hl Hr Hre. unfold merge_memories, bind, lift. simpl.
  rewrite Hf. simpl. rewrite collect_ids_entries by done.
  destruct remote as [| | | | |g]; try discriminate. simpl in *.
  destruct (dict_get "entries" g) as [[| | | |r'|]|]; try discriminate.
  injection Hr as ->. simpl.
  rewrite (merge_loop_entries l r f l) by done. simpl.
  rewrite dict_get_set_eq. simpl.
  rewrite py_sort_entries.
  2:{ rewrite forallb_app, Hl. simpl. by apply new_entries_entries. }
  simpl. by rewrite dict_set_set.
Qed.

Lemma filter_ids_nodup (p : json -> bool) l :
  NoDup (ids_of l) -> NoDup (ids_of (List.filter p l)).
Proof.
  unfold ids_of. induction l as [|e l IH]; simpl; [done|].
  intros H. apply NoDup_cons in H as [Hn Hl].
  destruct (p e); simpl; [|by apply IH].
  apply NoDup_cons. split; [|by apply IH].
  intros Hin. apply Hn. apply list_elem_of_fmap in Hin as (x & -> & Hx).
  apply list_elem_of_fmap. exists x. split; [done|].
  apply list_elem_of_In in Hx. apply filter_In in Hx as [Hx _].
  by apply list_elem_of_In.
Qed.

Lemma known_spec l e : known l e = true <-> id_of e ∈ map id_of l.
Proof.
  unfold known. rewrite existsb_exists. split.
  - intros (x & Hx & E). apply String.eqb_eq in E. subst.
    by apply list_elem_of_In.
  - intros H. exists (id_of e). split; [by apply list_elem_of_In|].
    apply String.eqb_refl.
Qed.

Lemma merged_perm l r : Permutation (l ++ new_entries l r) (merged l r).
Proof. apply sort_ts_perm. Qed.

Lemma merged_unique l r :
  NoDup (ids_of l) -> NoDup (ids_of r) -> NoDup (ids_of (merged l r)).
Proof.
  intros Hl Hr. unfold ids_of.
  eapply NoDup_Permutation_proper;
    [symmetry; apply Permutation_map, merged_perm|].
  rewrite map_app. apply NoDup_app. split; [done|]. split.
  - intros x Hx Hx'.
    apply list_elem_of_fmap in Hx as (a & -> & Ha).
    apply list_elem_of_fmap in Hx' as (b & E & Hb).
    apply list_elem_of_In in Hb. apply filter_In in Hb as [_ Hb].
    apply negb_true_iff in Hb.
    assert (known l b = true) as Hk; [|congruence].
    apply known_spec. unfold id_of. rewrite <- E.
    apply (list_elem_of_fmap_2 id_of) in Ha. exact Ha.
  - by apply filter_ids_nodup.
Qed.

(** ** Appending *)

Lemma ids_of_day_entries today l :
  forallb is_entry l = true ->
  ids_of_day today l = Return (id_values (of_day today l)).
Proof.
  unfold id_values, of_day. induction l as [|e l IH]; simpl; [done|].
  intros H. apply andb_prop in H as [He Hl].
  rewrite getitem_id_entry by done. simpl. rewrite IH by done. simpl.
  by destruct (String.prefix today (id_of e)).
Qed.

Lemma add_entry_entries w f l entry_type content source metadata :
  dict_get "entries" f = Some (JArr l) ->
  forallb is_entry l = true ->
  add_entry (JObj f) entry_type content source metadata w
  = (Return
       (JObj (dict_set "timestamp" (utc_stamp (now_of (tick (tick w))))
                (dict_set "entries"
                   (JArr (l ++ [made_entry
                                  (next_id (strftime_Ymd (now_of w)) l)
                                  entry_type content source
                                  (now_of (tick w)) metadata]))
                   f))),
     tick (tick (tick w))).
Proof.
  intros Hf Hl. unfold add_entry, bind, lift. simpl.
  rewrite Hf. simpl. rewrite ids_of_day_entries by done. simpl.
  unfold id_values. rewrite length_map. reflexivity.
Qed.

Lemma doc_entries_set_timestamp v x f :
  doc_entries (JObj (dict_set "timestamp" v (dict_set "entries" (JArr x) f)))
  = Some x.
Proof.
  simpl. rewrite dict_get_set_ne by done. by rewrite dict_get_set_eq.
Qed.

Lemma sorted_snoc l e :
  sorted_by_timestamp (l ++ [e]) <->
  sorted_by_timestamp l /\ (forall x, last l = Some x -> ts_le x e).
Proof.
  unfold sorted_by_timestamp. induction l as [|a l IH]; simpl.
  - split; [intros _; split; [constructor|done]|repeat constructor].
  - split.
    + intros H. inversion H as [|? ? Hs Hhd]; subst.
      apply IH in Hs as [Hs Hlast]. split.
      * constructor; [done|]. destruct l; simpl in *; [constructor|].
        inversion Hhd; subst. by constructor.
      * intros x Hx. destruct l as [|b l]; simpl in *.
        -- injection Hx as <-. by inversion Hhd.
        -- by apply Hlast.
    + intros [H Hlast]. inversion H as [|? ? Hs Hhd]; subst.
      constructor.
      * apply IH. split; [done|]. intros x Hx. apply Hlast.
        destruct l; [done|]. done.
      * destruct l as [|b l]; simpl.
        -- constructor. by apply Hlast.
        -- inversion Hhd; subst. by constructor.
Qed.

Lemma new_entries_self l : new_entries l l = [].
Proof.
  unfold new_entries.
  assert (forall k, (forall e, In e k -> In e l) ->
                    List.filter (fun e => negb (known l e)) k = []) as H.
  { induction k as [|e k IH]; simpl; [done|]. intros Hk.
    assert (known l e = true) as ->.
    { apply known_spec. apply list_elem_of_fmap_2, list_elem_of_In. auto. }
    simpl. apply IH. auto. }
  by apply H.
Qed.

(** ** The claims *)

(** C1, as amended.  For all documents [local] and [remote], each with
    entry ids unique within it, [merge_memories(local, remote)] returns a
    document whose entry ids are again unique. *)
Theorem merge_memories_unique_ids w local remote :
  is_document local = true -> is_document remote = true ->
  unique_ids local -> unique_ids remote ->
  exists result,
    merge_memories local remote w = (Return result, tick w) /\
    unique_ids result.
Proof.
  intros Hl Hr (l & El & Ul) (r & Er & Ur).
  destruct (is_document_inv _ Hl) as (f & l' & -> & Hf & El' & Hle).
  destruct (is_document_inv _ Hr) as (g & r' & -> & Hg & Er' & Hre).
  assert (l' = l) as -> by congruence. assert (r' = r) as -> by congruence.
  eexists. split.
  - by apply (merge_memories_entries w _ _ f l r).
  - exists (merged l r). split; [apply doc_entries_set_timestamp|].
    by apply merged_unique.
Qed.

Lemma merge_memories_unique_ids_witness :
  exists result,
    merge_memories
      (sample_doc [sample_entry "20260212-001" "2026-02-12T08:00:00Z"])
      (sample_doc [sample_entry "20260212-001" "2026-02-12T08:00:00Z";
                   sample_entry "20260211-001" "2026-02-11T09:30:00Z"])
      quiet = (Return result, tick quiet) /\
    unique_ids result.
Proof.
  apply merge_memories_unique_ids; [reflexivity|reflexivity| |].
  - unique_ids_of [sample_entry "20260212-001" "2026-02-12T08:00:00Z"].
  - unique_ids_of [sample_entry "20260212-001" "2026-02-12T08:00:00Z";
                   sample_entry "20260211-001" "2026-02-11T09:30:00Z"].
Defined.

(** C1, as stated, fails.  A remote that repeats an id absent from
    [local] has both copies appended; and [add_entry] reuses an id when
    today's ids are not numbered without a gap. *)
Lemma unique_ids_counterexample :
  (unique_ids (sample_doc []) /\
   exists result,
     fst (merge_memories (sample_doc [])
            (sample_doc [sample_entry "20260212-001" "2026-02-12T08:00:00Z";
                         sample_entry "20260212-001" "2026-02-12T09:00:00Z"])
            quiet) = Return result /\
     ~ unique_ids result) /\
  (unique_ids (sample_doc [sample_entry "20260213-002" "2026-02-13T08:00:00Z"]) /\
   exists result,
     fst (add_entry
            (sample_doc [sample_entry "20260213-002" "2026-02-13T08:00:00Z"])
            "note" "remember" "heron-01" None quiet) = Return result /\
     ~ unique_ids result).
Proof.
  split; (split; [|eexists; split; [vm_compute; reflexivity|not_unique_ids]]).
  - unique_ids_of (@nil json).
  - unique_ids_of [sample_entry "20260213-002" "2026-02-13T08:00:00Z"].
Qed.

(** C2, as amended.  For all documents [local] and [remote],
    [merge_memories(local, remote)] returns a document whose entries are
    sorted ascending by [metadata.timestamp].  [add_entry] does not sort:
    it returns the document with its entries in their old order and the
    new entry last, so its entries are sorted exactly when the entries of
    the document were and the last of them has a timestamp not above the
    new entry's. *)
Theorem merge_sorts_append_keeps_order
  w local remote memory l entry_type content source metadata :
  is_document local = true -> is_document remote = true ->
  is_document memory = true -> doc_entries memory = Some l ->
  (exists result sorted,
     merge_memories local remote w = (Return result, tick w) /\
     doc_entries result = Some sorted /\
     sorted_by_timestamp sorted) /\
  (exists result e,
     add_entry memory entry_type content source metadata w
     = (Return result, tick (tick (tick w))) /\
     doc_entries result = Some (l ++ [e]) /\
     (sorted_by_timestamp (l ++ [e]) <->
      sorted_by_timestamp l /\ forall x, last l = Some x -> ts_le x e)).
Proof.
  intros Hl Hr Hm El. split.
  - destruct (is_document_inv _ Hl) as (f & a & -> & Hf & _ & Ha).
    destruct (is_document_inv _ Hr) as (g & b & -> & Hg & Eb & Hb).
    eexists _, (merged a b). split; [|split].
    + by apply (merge_memories_entries w _ _ f a b).
    + apply doc_entries_set_timestamp.
    + apply sort_ts_sorted. rewrite forallb_app, Ha. simpl.
      by apply new_entries_entries.
  - destruct (is_document_inv _ Hm) as (f & l' & -> & Hf & El' & Hle).
    assert (l' = l) as -> by congruence.
    eexists _, _. split; [|split].
    + by apply add_entry_entries.
    + apply doc_entries_set_timestamp.
    + apply sorted_snoc.
Qed.

Lemma merge_sorts_append_keeps_order_witness :
  (exists result sorted,
     merge_memories
       (sample_doc [sample_entry "20260212-001" "2026-02-12T08:00:00Z"])
       (sample_doc [sample_entry "20260211-001" "2026-02-11T09:30:00Z"])
       quiet = (Return result, tick quiet) /\
     doc_entries result = Some sorted /\
     sorted_by_timestamp sorted) /\
  (exists result e,
     add_entry
       (sample_doc [sample_entry "20260212-001" "2026-02-12T08:00:00Z"])
       "note" "remember" "heron-01" None quiet
     = (Return result, tick (tick (tick quiet))) /\
     doc_entries result
     = Some ([sample_entry "20260212-001" "2026-02-12T08:00:00Z"] ++ [e]) /\
     (sorted_by_timestamp
        ([sample_entry "20260212-001" "2026-02-12T08:00:00Z"] ++ [e]) <->
      sorted_by_timestamp
        [sample_entry "20260212-001" "2026-02-12T08:00:00Z"] /\
      forall x,
        last [sample_entry "20260212-001" "2026-02-12T08:00:00Z"] = Some x ->
        ts_le x e)).
Proof.
  apply merge_sorts_append_keeps_order; reflexivity.
Defined.

(** C2, as stated, fails for [add_entry]: a sorted document that holds
    an entry stamped after the clock's time gets the new entry behind
    it. *)
Lemma append_sorted_counterexample :
  let memory :=
    sample_doc [sample_entry "20270101-001" "2027-01-01T00:00:00Z"] in
  is_document memory = true /\
  (exists l, doc_entries memory = Some l /\ sorted_by_timestamp l) /\
  exists result l,
    fst (add_entry memory "note" "remember" "heron-01" None quiet)
    = Return result /\
    doc_entries result = Some l /\
    ~ sorted_by_timestamp l.
Proof.
  split; [reflexivity|]. split.
  - eexists. split; [reflexivity|]. repeat constructor.
  - eexists _, _. split; [vm_compute; reflexivity|].
    split; [vm_compute; reflexivity|].
    intros H. inversion H as [|? ? _ Hhd]; subst.
    inversion Hhd as [|? ? Hle]; subst. vm_compute in Hle. discriminate.
Qed.

Lemma length_append a b :
  String.length (a +:+ b) = String.length a + String.length b.
Proof. induction a as [|c a IH]; simpl; [done|]. by rewrite IH. Qed.

Lemma length_zeros k : String.length (zeros k) = k.
Proof. induction k as [|k IH]; simpl; [done|]. by rewrite IH. Qed.

(** [f"{n:0wd}"] never prints fewer than [w] characters. *)
Lemma fmt_d_width w n : w <= String.length (fmt_d w n).
Proof. unfold fmt_d. rewrite length_append, length_zeros. lia. Qed.

(** C3, as amended.  For every document and all arguments, [add_entry]
    returns the document with exactly one entry added, at the end; the
    id of the entry is today's UTC date, a dash and the number of entries
    whose id starts with that date plus one, printed with zeros in front
    to at least three digits (three digits exactly while the number is
    below 1000, more from 1000 on); its content is the first 200
    characters of [content]; and the document's [timestamp] is the UTC
    time read last. *)
Theorem add_entry_appends w memory l entry_type content source metadata :
  is_document memory = true -> doc_entries memory = Some l ->
  let today := strftime_Ymd (now_of w) in
  let n := length (of_day today l) + 1 in
  exists result e,
    add_entry memory entry_type content source metadata w
    = (Return result, tick (tick (tick w))) /\
    doc_entries result = Some (l ++ [e]) /\
    entry_id e = Some (today +:+ "-" +:+ fmt_d 3 n) /\
    3 <= String.length (fmt_d 3 n) /\
    (n < 1000 -> String.length (fmt_d 3 n) = 3) /\
    entry_content e = Some (JStr (String.substring 0 200 content)) /\
    doc_field "timestamp" result
    = Some (JStr (isoformat (now_of (tick (tick w))) +:+ "Z")).
Proof.
  intros Hm El today n.
  destruct (is_document_inv _ Hm) as (f & l' & -> & Hf & El' & Hle).
  assert (l' = l) as -> by congruence.
  eexists _, _. split; [by apply add_entry_entries|].
  split; [apply doc_entries_set_timestamp|].
  split; [reflexivity|]. split; [apply fmt_d_width|]. split; [|split].
  - intros Hn.
    assert (forallb (fun k => Nat.eqb (String.length (fmt_d 3 k)) 3) (seq 0 1000)
            = true) as H by (vm_compute; reflexivity).
    rewrite forallb_forall in H. apply Nat.eqb_eq, H, in_seq. lia.
  - reflexivity.
  - simpl. apply dict_get_set_eq.
Qed.

Lemma add_entry_appends_witness :
  let memory :=
    sample_doc [sample_entry "20260213-001" "2026-02-13T08:00:00Z"] in
  let l := [sample_entry "20260213-001" "2026-02-13T08:00:00Z"] in
  let today := strftime_Ymd (now_of quiet) in
  let n := length (of_day today l) + 1 in
  exists result e,
    add_entry memory "note" "remember" "heron-01" None quiet
    = (Return result, tick (tick (tick quiet))) /\
    doc_entries result = Some (l ++ [e]) /\
    entry_id e = Some (today +:+ "-" +:+ fmt_d 3 n) /\
    3 <= String.length (fmt_d 3 n) /\
    (n < 1000 -> String.length (fmt_d 3 n) = 3) /\
    entry_content e = Some (JStr (String.substring 0 200 "remember")) /\
    doc_field "timestamp" result
    = Some (JStr (isoformat (now_of (tick (tick quiet))) +:+ "Z")).
Proof.
  apply add_entry_appends; reflexivity.
Defined.

(** C3, as stated, fails: in a document that holds 999 entries of the
    day the new entry gets the id [20260213-1000], whose sequence part
    has four digits, not three. *)
Lemma add_entry_three_digits_counterexample :
  let l := map (fun k => sample_entry ("20260213-" +:+ fmt_d 3 k)
                           "2026-02-13T08:00:00Z") (seq 1 999) in
  is_document (sample_doc l) = true /\
  strftime_Ymd (now_of quiet) = "20260213" /\
  length (of_day "20260213" l) = 999 /\
  exists result l',
    fst (add_entry (sample_doc l) "note" "remember" "heron-01" None quiet)
    = Return result /\
    doc_entries result = Some l' /\
    (last l' ≫= entry_id) = Some "20260213-1000" /\
    ~ exists digits,
        String.length digits = 3 /\
        (last l' ≫= entry_id) = Some ("20260213-" +:+ digits).
Proof.
  intros l. split; [vm_compute; reflexivity|].
  split; [vm_compute; reflexivity|]. split; [vm_compute; reflexivity|].
  eexists _, _. split; [vm_compute; reflexivity|].
  split; [vm_compute; reflexivity|]. split; [vm_compute; reflexivity|].
  intros (digits & Hlen & H). vm_compute in H.
  injection H as <-. discriminate Hlen.
Qed.

(** C4: the code at a failing input.  The local document is empty, the
    remote one holds today's entry number 3; after the merge [add_entry]
    numbers its entry 2, below the 3 already in the document. *)
Theorem add_entry_sequence_not_above :
  let remote :=
    sample_doc [sample_entry "20260213-003" "2026-02-13T08:00:00Z"] in
  exists merged_doc result old new,
    fst (merge_memories (sample_doc []) remote quiet) = Return merged_doc /\
    fst (add_entry merged_doc "note" "remember" "heron-01" None (tick quiet))
    = Return result /\
    strftime_Ymd (now_of (tick quiet)) = "20260213" /\
    doc_entries result = Some [old; new] /\
    day_sequence "20260213" (id_of old) = Some 3 /\
    day_sequence "20260213" (id_of new) = Some 2.
Proof.
  eexists _, _, _, _.
  split; [vm_compute; reflexivity|].
  split; [vm_compute; reflexivity|].
  repeat split; vm_compute; reflexivity.
Qed.

(** C5.  For every document [d], [merge_memories(d, d)] returns the
    document with no entry added: its entries are the entries of [d],
    sorted by timestamp, each as often as before. *)
Theorem merge_memories_self w d l :
  is_document d = true -> doc_entries d = Some l ->
  exists result l',
    merge_memories d d w = (Return result, tick w) /\
    doc_entries result = Some l' /\
    l' = sort_ts l /\
    length l' = length l /\
    Permutation l l'.
Proof.
  intros Hd El.
  destruct (is_document_inv _ Hd) as (f & l0 & -> & Hf & El0 & Hle).
  assert (l0 = l) as -> by congruence.
  exists (JObj (dict_set "timestamp" (utc_stamp (now_of w))
                  (dict_set "entries" (JArr (sort_ts l)) f))), (sort_ts l).
  split; [|split; [|split; [|split]]].
  - rewrite (merge_memories_entries w _ _ f l l) by done.
    unfold merged. by rewrite new_entries_self, app_nil_r.
  - apply doc_entries_set_timestamp.
  - reflexivity.
  - symmetry. apply Permutation_length, sort_ts_perm.
  - apply sort_ts_perm.
Qed.

Lemma merge_memories_self_witness :
  let l := [sample_entry "20260212-001" "2026-02-12T08:00:00Z";
            sample_entry "20260211-001" "2026-02-11T09:30:00Z"] in
  exists result l',
    merge_memories (sample_doc l) (sample_doc l) quiet
    = (Return result, tick quiet) /\
    doc_entries result = Some l' /\
    l' = sort_ts l /\
    length l' = length l /\
    Permutation l l'.
Proof.
  apply merge_memories_self; reflexivity.
Defined.

(** ** Files *)

Lemma backup_path_fresh path : path +:+ ".backup" <> path.
Proof.
  induction path as [|c path IH]; simpl; [done|].
  intros H. injection H as H. by apply IH.
Qed.

(** [load_memory] on a file that holds an object. *)
Lemma load_memory_object w path f :
  fault w (SysRead path) = None ->
  files w !! path = Some (JsonText (JObj f)) ->
  load_memory path w
  = (Return (if has_marker (JObj f) then Some (JObj f) else None), w).
Proof.
  intros Hr Hf.
  unfold load_memory, read_json, syscall_check, try_except, lift, bind. simpl.
  rewrite Hr, Hf. simpl.
  destruct (dict_get "campbell_motto" f) as [[| | |s| |]|]; try reflexivity.
  simpl. by destruct (String.eqb s campbell_motto).
Qed.

(** [load_memory] on a missing or malformed file. *)
Lemma load_memory_unreadable w path :
  fault w (SysRead path) = None ->
  files w !! path = None \/ files w !! path = Some Malformed ->
  load_memory path w = (Return None, w).
Proof.
  intros Hr Hf.
  unfold load_memory, read_json, syscall_check, try_except, lift, bind. simpl.
  rewrite Hr. by destruct Hf as [-> | ->].
Qed.

(** What a successful [save_memory] leaves. *)
Lemma save_memory_true w w' memory path :
  save_memory memory path w = (Return true, w') ->
  files w' !! path = Some (JsonText memory) /\ fault w' = fault w.
Proof.
  unfold save_memory, os_path_exists, os_rename, write_json, syscall_check,
    try_except, ret, bind. simpl.
  destruct (bool_decide (is_Some (files w !! path))); simpl.
  - destruct (fault w (SysRename path (path +:+ ".backup"))); simpl;
      [intros [=]|].
    destruct (files w !! path); simpl; [|intros [=]].
    destruct (fault w (SysOpenWrite path)); simpl; [intros [=]|].
    destruct (fault w (SysWrite path)); simpl; [intros [=]|].
    intros [= <-]. simpl. by rewrite lookup_insert_eq.
  - destruct (fault w (SysOpenWrite path)); simpl; [intros [=]|].
    destruct (fault w (SysWrite path)); simpl; [intros [=]|].
    intros [= <-]. simpl. by rewrite lookup_insert_eq.
Qed.

(** [save_memory] succeeds when no system call fails. *)
Lemma save_memory_succeeds w memory path :
  fault w (SysRename path (path +:+ ".backup")) = None ->
  fault w (SysOpenWrite path) = None ->
  fault w (SysWrite path) = None ->
  exists w', save_memory memory path w = (Return true, w').
Proof.
  intros Hn Ho Hw.
  unfold save_memory, os_path_exists, os_rename, write_json, syscall_check,
    try_except, ret, bind. simpl.
  destruct (files w !! path) as [old|] eqn:E; simpl.
  - rewrite Hn, E. simpl. rewrite Ho. simpl. rewrite Hw. eauto.
  - rewrite Ho. simpl. rewrite Hw. eauto.
Qed.

(** C6, as amended.  For every document that carries the marker and
    every path, when no system call fails (the rename of an existing
    file, opening and writing the file, reading it back),
    [save_memory(memory, path)] returns [True] and [load_memory(path)]
    then returns a document equal to [memory]. *)
Theorem save_then_load w memory path :
  has_marker memory = true ->
  fault w (SysRename path (path +:+ ".backup")) = None ->
  fault w (SysOpenWrite path) = None ->
  fault w (SysWrite path) = None ->
  fault w (SysRead path) = None ->
  exists w',
    save_memory memory path w = (Return true, w') /\
    load_memory path w' = (Return (Some memory), w').
Proof.
  intros Hm Hn Ho Hw Hr.
  destruct (save_memory_succeeds w memory path Hn Ho Hw) as [w' Hs].
  exists w'. split; [done|].
  destruct (save_memory_true _ _ _ _ Hs) as [Hf Hfault].
  destruct memory as [| | | | |f]; try discriminate.
  rewrite (load_memory_object w' path f); [by rewrite Hm| |done].
  by rewrite Hfault.
Qed.

Lemma save_then_load_witness :
  exists w',
    save_memory (sample_doc []) "memory.json" quiet = (Return true, w') /\
    load_memory "memory.json" w' = (Return (Some (sample_doc [])), w').
Proof.
  apply save_then_load; reflexivity.
Defined.

(** C6, as stated, fails: where the file cannot be opened for writing,
    [save_memory] returns [False] and [load_memory] finds no document. *)
Lemma save_then_load_counterexample :
  let w := failing (opens_for_writing "memory.json") PermissionError quiet in
  has_marker (sample_doc []) = true /\
  fst (save_memory (sample_doc []) "memory.json" w) = Return false /\
  fst (load_memory "memory.json"
         (snd (save_memory (sample_doc []) "memory.json" w)))
  = Return None.
Proof.
  repeat split; vm_compute; reflexivity.
Qed.

(** C7: the code on files that hold a JSON value other than an object
    (a list, a string, a number, [true], [false], [null]).  The file is
    there, it parses, and it is no document; [load_memory] neither
    returns [None] nor the parsed value: [memory.get] raises
    [AttributeError], which the [except] clause does not catch. *)
Theorem load_memory_not_object w path v :
  fault w (SysRead path) = None ->
  files w !! path = Some (JsonText v) ->
  is_object v = false ->
  load_memory path w = (Raise AttributeError, w).
Proof.
  intros Hr Hf Hv.
  unfold load_memory, read_json, syscall_check, try_except, lift, bind. simpl.
  rewrite Hr, Hf. by destruct v.
Qed.

Lemma load_memory_not_object_witness :
  let w := with_files quiet {["memory.json" := JsonText (JArr [])]} in
  load_memory "memory.json" w = (Raise AttributeError, w).
Proof.
  apply (load_memory_not_object _ _ (JArr [])); reflexivity.
Defined.



(** [save_memory] never raises: it returns [True] or [False]. *)
Lemma save_memory_returns w memory path :
  exists b w', save_memory memory path w = (Return b, w').
Proof.
  unfold save_memory, try_except.
  destruct (bind _ _ w) as [[b|e] w']; simpl; eauto.
Qed.

(** What [sync_with_remote] does once [load_memory] has returned [None]:
    it starts from the new document, adds the entry that records the
    attempt, numbered 001 for today, and saves. *)
Lemma sync_with_remote_fresh w path url source :
  load_memory path w = (Return None, w) ->
  let created := new_memory (now_of w) in
  let synced :=
    JObj [("version", JStr "20260213-0.1");
          ("timestamp", utc_stamp (now_of (tick (tick (tick w)))));
          ("campbell_motto", JStr campbell_motto);
          ("entries",
            JArr [made_entry
                    (strftime_Ymd (now_of (tick w)) +:+ "-001")
                    "action" ("Memory sync attempted with " +:+ url) source
                    (now_of (tick (tick w)))
                    (Some [("sync_status", JStr "local_only");
                           ("remote_url", JStr url)])])] in
  doc_entries created = Some [] /\
  has_marker created = true /\
  sync_with_remote path url source w
  = save_memory synced path (tick (tick (tick (tick w)))).
Proof.
  intros Hload created synced. split; [done|]. split; [done|].
  unfold sync_with_remote. unfold bind at 1 2 3. rewrite Hload.
  unfold bind at 1. unfold utcnow at 1, ret at 1.
  unfold new_memory.
  rewrite (add_entry_entries (tick w) _ []) by done.
  change ((saved <- save_memory synced path ;;
           (if (saved : bool) then ret true else ret false))
            (tick (tick (tick (tick w))))
          = save_memory synced path (tick (tick (tick (tick w))))).
  destruct (save_memory_returns (tick (tick (tick (tick w)))) synced path)
    as (b & w' & Hs).
  unfold bind. rewrite Hs. by destruct b.
Qed.

(** [load_memory] on a file that holds a value other than an object. *)
Lemma load_memory_value w path v :
  fault w (SysRead path) = None ->
  files w !! path = Some (JsonText v) ->
  is_object v = false ->
  load_memory path w = (Raise AttributeError, w).
Proof.
  intros Hr Hf Hv.
  unfold load_memory, read_json, syscall_check, try_except, lift, bind. simpl.
  rewrite Hr, Hf. by destruct v.
Qed.

(** C9: the code on a local file that holds a JSON value other than an
    object.  The file is no document, and [sync_with_remote] does not
    create a new one: the [AttributeError] of [load_memory] ends it,
    with nothing written. *)
Theorem sync_with_remote_not_object w path url source v :
  fault w (SysRead path) = None ->
  files w !! path = Some (JsonText v) ->
  is_object v = false ->
  sync_with_remote path url source w = (Raise AttributeError, w).
Proof.
  intros Hr Hf Hv. unfold sync_with_remote. unfold bind at 1 2 3.
  by rewrite (load_memory_value w path v).
Qed.

Lemma sync_with_remote_not_object_witness :
  let w := with_files quiet {["memory.json" := JsonText (JArr [])]} in
  sync_with_remote "memory.json" "https://united-humanity.us/api/memory/public"
    "heron-02" w
  = (Raise AttributeError, w).
Proof.
  apply (sync_with_remote_not_object _ _ _ _ (JArr [])); reflexivity.
Defined.

(** C10.  There is a document that [load_memory] accepts (an object
    with the marker) on which [add_entry] raises for all arguments: it
    has no [entries] field, so the count runs over the empty default and
    [memory['entries']] is a [KeyError]. *)
Theorem add_entry_without_entries :
  exists memory w,
    load_memory "memory.json" w = (Return (Some memory), w) /\
    forall w' entry_type content source metadata,
      add_entry memory entry_type content source metadata w'
      = (Raise KeyError, tick (tick w')).
Proof.
  exists (JObj [("campbell_motto", JStr campbell_motto)]).
  exists (with_files quiet
            {["memory.json" :=
                JsonText (JObj [("campbell_motto", JStr campbell_motto)])]}).
  split; reflexivity.
Qed.

(** * Further properties of the script *)

(** ** Loading and saving *)

(** [load_memory] only reads: whatever it returns or raises, the files
    and the clock are as before. *)
Theorem load_memory_reads_only w path : snd (load_memory path w) = w.
Proof.
  unfold load_memory, read_json, syscall_check, try_except, lift, ret, bind.
  simpl. destruct (fault w (SysRead path)) as [[]|]; simpl; try done.
  destruct (files w !! path) as [[|v]|]; simpl; try done.
  destruct v as [| | | | |f]; simpl; try done.
  destruct (dict_get "campbell_motto" f) as [v|]; simpl; [|done].
  by destruct (negb (py_eq v (JStr campbell_motto))).
Qed.

(** X2.  When renaming the existing file fails, [save_memory] returns
    [False] and leaves every file as it was: nothing is written. *)
Theorem save_memory_rename_fails w memory path old e :
  files w !! path = Some old ->
  fault w (SysRename path (path +:+ ".backup")) = Some e ->
  save_memory memory path w = (Return false, w).
Proof.
  intros Hf Hn.
  unfold save_memory, os_path_exists, os_rename, write_json, syscall_check,
    try_except, ret, bind. simpl.
  rewrite Hf. simpl. by rewrite Hn.
Qed.

Lemma save_memory_rename_fails_witness :
  let w :=
    failing (fun c => match c with SysRename _ _ => true | _ => false end)
      PermissionError
      (with_files quiet {["memory.json" := JsonText (sample_doc [])]}) in
  save_memory (sample_doc []) "memory.json" w = (Return false, w).
Proof.
  apply (save_memory_rename_fails _ _ _ (JsonText (sample_doc []))
           PermissionError); reflexivity.
Defined.

(** X3.  [save_memory] touches two paths only, the file and its backup: every
    other file is the same afterwards, whether the call succeeds or not. *)
Theorem save_memory_other_files w memory path other :
  other <> path -> other <> path +:+ ".backup" ->
  files (snd (save_memory memory path w)) !! other = files w !! other.
Proof.
  intros H1 H2.
  unfold save_memory, os_path_exists, os_rename, write_json, syscall_check,
    try_except, ret, bind. simpl.
  destruct (files w !! path) as [old|] eqn:E; simpl.
  - destruct (fault w (SysRename path (path +:+ ".backup"))); simpl; [done|].
    rewrite E. simpl.
    destruct (fault w (SysOpenWrite path)); simpl.
    + rewrite lookup_insert_ne, lookup_delete_ne; done.
    + destruct (fault w (SysWrite path)); simpl;
        rewrite !lookup_insert_ne, ?lookup_delete_ne; done.
  - destruct (fault w (SysOpenWrite path)); simpl; [done|].
    destruct (fault w (SysWrite path)); simpl;
      rewrite !lookup_insert_ne; done.
Qed.

Lemma save_memory_other_files_witness :
  let w := with_files quiet {["notes.txt" := Malformed]} in
  files (snd (save_memory (sample_doc []) "memory.json" w)) !! "notes.txt"
  = files w !! "notes.txt".
Proof.
  apply save_memory_other_files; discriminate.
Defined.

(** X4.  Without a file at the path there is nothing to back up: the backup
    path is left as it is, whatever happens to the write. *)
Theorem save_memory_no_backup w memory path :
  files w !! path = None ->
  files (snd (save_memory memory path w)) !! (path +:+ ".backup")
  = files w !! (path +:+ ".backup").
Proof.
  intros E. pose proof (backup_path_fresh path) as Hne.
  unfold save_memory, os_path_exists, os_rename, write_json, syscall_check,
    try_except, ret, bind. simpl. rewrite E. simpl.
  destruct (fault w (SysOpenWrite path)); simpl; [done|].
  destruct (fault w (SysWrite path)); simpl;
    rewrite !lookup_insert_ne; done.
Qed.

Lemma save_memory_no_backup_witness :
  let w := with_files quiet {["memory.json.backup" := Malformed]} in
  files (snd (save_memory (sample_doc []) "memory.json" w))
    !! ("memory.json" +:+ ".backup")
  = files w !! ("memory.json" +:+ ".backup").
Proof.
  apply save_memory_no_backup; reflexivity.
Defined.

(** ** More on merging *)

Lemma merged_entries l r :
  forallb is_entry l = true -> forallb is_entry r = true ->
  forallb is_entry (merged l r) = true.
Proof.
  intros Hl Hr. apply sort_ts_entries. rewrite forallb_app, Hl. simpl.
  by apply new_entries_entries.
Qed.

Lemma known_perm l l' e : Permutation l l' -> known l e = known l' e.
Proof.
  intros H. apply eq_true_iff_eq. rewrite !known_spec.
  by rewrite (Permutation_map id_of H).
Qed.

Lemma known_app_l l k e : known l e = true -> known (l ++ k) e = true.
Proof.
  rewrite !known_spec, map_app. intros H. apply elem_of_app. by left.
Qed.

Lemma known_new_entries l r e :
  In e r -> known (l ++ new_entries l r) e = true.
Proof.
  intros He. destruct (known l e) eqn:E; [by apply known_app_l|].
  apply known_spec. rewrite map_app. apply elem_of_app. right.
  apply list_elem_of_fmap_2, list_elem_of_In. unfold new_entries.
  apply filter_In. by rewrite E.
Qed.

Lemma new_entries_merged l r : new_entries (merged l r) r = [].
Proof.
  unfold new_entries.
  assert (forall k, (forall e, In e k -> In e r) ->
            List.filter (fun e => negb (known (merged l r) e)) k = []) as H.
  { induction k as [|e k IH]; simpl; [done|]. intros Hk.
    rewrite <- (known_perm _ _ e (merged_perm l r)).
    rewrite known_new_entries by auto. simpl. apply IH. auto. }
  by apply H.
Qed.

(** The result of [merge_memories] as a value, for documents. *)
Lemma merge_memories_document w local remote l r :
  is_document local = true -> is_document remote = true ->
  doc_entries local = Some l -> doc_entries remote = Some r ->
  exists result,
    merge_memories local remote w = (Return result, tick w) /\
    doc_entries result = Some (merged l r) /\
    is_document result = true.
Proof.
  intros Hl Hr El Er.
  destruct (is_document_inv _ Hl) as (f & l' & -> & Hf & El' & Hle).
  destruct (is_document_inv _ Hr) as (g & r' & -> & Hg & Er' & Hre).
  assert (l' = l) as -> by congruence. assert (r' = r) as -> by congruence.
  eexists. split; [by apply (merge_memories_entries w _ _ f l r)|].
  assert (doc_entries
            (JObj (dict_set "timestamp" (utc_stamp (now_of w))
                     (dict_set "entries" (JArr (merged l r)) f)))
          = Some (merged l r)) as E by apply doc_entries_set_timestamp.
  split; [done|]. unfold is_document. rewrite E. by apply merged_entries.
Qed.

(** X5.  Merging the same remote a second time changes no entry: the first
    merge took every id the remote has, and its entries are sorted. *)
Theorem merge_memories_again w local remote l r :
  is_document local = true -> is_document remote = true ->
  doc_entries local = Some l -> doc_entries remote = Some r ->
  exists once twice,
    merge_memories local remote w = (Return once, tick w) /\
    merge_memories once remote (tick w) = (Return twice, tick (tick w)) /\
    doc_entries once = Some (merged l r) /\
    doc_entries twice = Some (merged l r).
Proof.
  intros Hl Hr El Er.
  destruct (merge_memories_document w local remote l r Hl Hr El Er)
    as (once & H1 & E1 & D1).
  destruct (merge_memories_document (tick w) once remote (merged l r) r
              D1 Hr E1 Er) as (twice & H2 & E2 & _).
  exists once, twice. repeat split; try done.
  rewrite E2. f_equal. unfold merged at 1.
  rewrite new_entries_merged, app_nil_r.
  apply sort_ts_id.
  - by apply merged_entries;
      [destruct (is_document_inv _ Hl) as (? & ? & _ & _ & ? & ?); congruence
      |destruct (is_document_inv _ Hr) as (? & ? & _ & _ & ? & ?); congruence].
  - apply sort_ts_sorted. rewrite forallb_app.
    destruct (is_document_inv _ Hl) as (? & ? & _ & _ & ? & ?).
    destruct (is_document_inv _ Hr) as (? & ? & _ & _ & ? & ?).
    apply andb_true_intro. split; [congruence|].
    apply new_entries_entries. congruence.
Qed.

Lemma merge_memories_again_witness :
  let l := [sample_entry "20260212-001" "2026-02-12T08:00:00Z"] in
  let r := [sample_entry "20260211-001" "2026-02-11T09:30:00Z"] in
  exists once twice,
    merge_memories (sample_doc l) (sample_doc r) quiet
    = (Return once, tick quiet) /\
    merge_memories once (sample_doc r) (tick quiet)
    = (Return twice, tick (tick quiet)) /\
    doc_entries once = Some (merged l r) /\
    doc_entries twice = Some (merged l r).
Proof.
  apply merge_memories_again; reflexivity.
Defined.

(** X6.  What a merge holds: every entry of [local], and of [remote] the
    entries whose id no entry of [local] has; nothing else, and each as
    often as it stood there. *)
Theorem merge_memories_members w local remote l r :
  is_document local = true -> is_document remote = true ->
  doc_entries local = Some l -> doc_entries remote = Some r ->
  exists result l',
    merge_memories local remote w = (Return result, tick w) /\
    doc_entries result = Some l' /\
    Permutation (l ++ new_entries l r) l' /\
    (forall e, In e l' <-> In e l \/ (In e r /\ known l e = false)) /\
    length l <= length l' <= length l + length r.
Proof.
  intros Hl Hr El Er.
  destruct (merge_memories_document w local remote l r Hl Hr El Er)
    as (result & H & E & _).
  exists result, (merged l r). split; [done|]. split; [done|].
  split; [apply merged_perm|]. split.
  - intros e. rewrite <- (Permutation_in' (eq_refl e) (merged_perm l r)).
    rewrite in_app_iff. unfold new_entries. rewrite filter_In.
    by rewrite negb_true_iff.
  - rewrite <- (Permutation_length (merged_perm l r)), length_app.
    split; [lia|]. unfold new_entries.
    pose proof (filter_length_le (fun e => negb (known l e)) r). lia.
Qed.

Lemma merge_memories_members_witness :
  let l := [sample_entry "20260212-001" "2026-02-12T08:00:00Z"] in
  let r := [sample_entry "20260212-001" "2026-02-12T10:00:00Z";
            sample_entry "20260211-001" "2026-02-11T09:30:00Z"] in
  exists result l',
    merge_memories (sample_doc l) (sample_doc r) quiet
    = (Return result, tick quiet) /\
    doc_entries result = Some l' /\
    Permutation (l ++ new_entries l r) l' /\
    (forall e, In e l' <-> In e l \/ (In e r /\ known l e = false)) /\
    length l <= length l' <= length l + length r.
Proof.
  apply merge_memories_members; reflexivity.
Defined.

Lemma entry_id_getitem e i :
  entry_id e = Some i -> py_getitem e "id" = Return (JStr i).
Proof.
  destruct e as [| | | | |d]; try discriminate. simpl.
  destruct (dict_get "id" d) as [[| | |s| |]|]; try discriminate.
  by intros [= ->].
Qed.

Lemma merge_loop_known l r local :
  forallb (has_known_id l) r = true ->
  merge_loop (id_values l) r local = Return local.
Proof.
  induction r as [|e r IH]; simpl; [done|].
  intros H. apply andb_prop in H as [He Hr]. unfold has_known_id in He.
  destruct (entry_id e) as [i|] eqn:Ei; [|discriminate].
  rewrite (entry_id_getitem e i Ei). simpl.
  assert (py_in (JStr i) (id_values l) = true) as ->; [|by apply IH].
  unfold py_in, id_values. clear -He.
  induction l as [|x l IH]; [done|]. cbn [map existsb] in *.
  apply orb_prop in He as [He|He].
  - apply orb_true_intro. by left.
  - apply orb_true_intro. right. by apply IH.
Qed.

(** X7.  A remote entry whose id some local entry has is skipped on its id
    alone: it may lack a source, a timestamp or any other field, and the
    merge still returns, with the local entries and no other. *)
Theorem merge_memories_skips_known w local remote l r :
  is_document local = true -> doc_entries local = Some l ->
  doc_entries remote = Some r ->
  forallb (has_known_id l) r = true ->
  exists result,
    merge_memories local remote w = (Return result, tick w) /\
    doc_entries result = Some (sort_ts l).
Proof.
  intros Hl El Er Hr.
  destruct (is_document_inv _ Hl) as (f & l' & -> & Hf & El' & Hle).
  assert (l' = l) as -> by congruence.
  destruct remote as [| | | | |g]; try discriminate. simpl in Er.
  destruct (dict_get "entries" g) as [[| | | |r'|]|] eqn:Eg; try discriminate.
  injection Er as ->.
  eexists. split.
  - unfold merge_memories, lift, bind. simpl. rewrite Hf, Eg. simpl.
    rewrite collect_ids_entries by done.
    rewrite merge_loop_known by done. simpl. rewrite Hf. simpl.
    rewrite py_sort_entries by done. reflexivity.
  - apply doc_entries_set_timestamp.
Qed.

Lemma merge_memories_skips_known_witness :
  let l := [sample_entry "20260212-001" "2026-02-12T08:00:00Z"] in
  exists result,
    merge_memories (sample_doc l)
      (JObj [("entries", JArr [JObj [("id", JStr "20260212-001")]])])
      quiet = (Return result, tick quiet) /\
    doc_entries result = Some (sort_ts l).
Proof.
  apply (merge_memories_skips_known _ _ _ _
           [JObj [("id", JStr "20260212-001")]]); reflexivity.
Defined.

(** X8.  A local dict without an [entries] field cannot take a merge: with
    any remote document [merge_memories] raises [KeyError], before it
    reads the clock. *)
Theorem merge_memories_local_without_entries w f remote :
  dict_get "entries" f = None ->
  is_document remote = true ->
  merge_memories (JObj f) remote w = (Raise KeyError, w).
Proof.
  intros Hf Hr.
  destruct (is_document_inv _ Hr) as (g & r & -> & Hg & _ & Hre).
  unfold merge_memories, lift, bind. simpl. rewrite Hf, Hg. simpl.
  destruct r as [|e r]; simpl.
  - by rewrite Hf.
  - apply andb_prop in Hre as [He _].
    rewrite getitem_id_entry by done. simpl. by rewrite Hf.
Qed.

Lemma merge_memories_local_without_entries_witness :
  merge_memories (JObj [("campbell_motto", JStr campbell_motto)])
    (sample_doc [sample_entry "20260212-001" "2026-02-12T08:00:00Z"]) quiet
  = (Raise KeyError, quiet).
Proof.
  apply merge_memories_local_without_entries; reflexivity.
Defined.

(** X9.  A remote dict without an [entries] field counts as one with no
    entries: merged into a document whose entries are sorted, it leaves
    them as they are, in their order. *)
Theorem merge_memories_remote_without_entries w local g l :
  is_document local = true -> doc_entries local = Some l ->
  sorted_by_timestamp l ->
  dict_get "entries" g = None ->
  exists result,
    merge_memories local (JObj g) w = (Return result, tick w) /\
    doc_entries result = Some l.
Proof.
  intros Hl El Hs Hg.
  destruct (is_document_inv _ Hl) as (f & l' & -> & Hf & El' & Hle).
  assert (l' = l) as -> by congruence.
  eexists. split.
  - unfold merge_memories, lift, bind. simpl. rewrite Hf, Hg. simpl.
    rewrite collect_ids_entries by done. simpl. rewrite Hf. simpl.
    rewrite py_sort_entries by done. rewrite sort_ts_id by done.
    reflexivity.
  - apply doc_entries_set_timestamp.
Qed.

Lemma merge_memories_remote_without_entries_witness :
  let l := [sample_entry "20260211-001" "2026-02-11T09:30:00Z";
            sample_entry "20260212-001" "2026-02-12T08:00:00Z"] in
  exists result,
    merge_memories (sample_doc l) (JObj []) quiet
    = (Return result, tick quiet) /\
    doc_entries result = Some l.
Proof.
  apply merge_memories_remote_without_entries; try reflexivity.
  repeat constructor.
Defined.

(** X10.  A merge writes two fields of the local document, [entries] and
    [timestamp]; every other field, the marker among them, is as it
    was, and [timestamp] is the time of the merge. *)
Theorem merge_memories_keeps_fields w local remote k :
  is_document local = true -> is_document remote = true ->
  k <> "entries" -> k <> "timestamp" ->
  exists result,
    merge_memories local remote w = (Return result, tick w) /\
    doc_field k result = doc_field k local /\
    has_marker result = has_marker local /\
    doc_field "timestamp" result
    = Some (JStr (isoformat (now_of w) +:+ "Z")).
Proof.
  intros Hl Hr Hk1 Hk2.
  destruct (is_document_inv _ Hl) as (f & l & -> & Hf & El & Hle).
  destruct (is_document_inv _ Hr) as (g & r & -> & Hg & Er & Hre).
  eexists. split; [by apply (merge_memories_entries w _ _ f l r)|].
  split; [|split].
  - simpl. rewrite !dict_get_set_ne; done.
  - simpl. rewrite !dict_get_set_ne; done.
  - simpl. apply dict_get_set_eq.
Qed.

Lemma merge_memories_keeps_fields_witness :
  let local := sample_doc [sample_entry "20260212-001" "2026-02-12T08:00:00Z"] in
  exists result,
    merge_memories local (sample_doc []) quiet = (Return result, tick quiet) /\
    doc_field "version" result = doc_field "version" local /\
    has_marker result = has_marker local /\
    doc_field "timestamp" result
    = Some (JStr (isoformat (now_of quiet) +:+ "Z")).
Proof.
  apply merge_memories_keeps_fields; try reflexivity; discriminate.
Defined.

(** ** More on appending *)

Lemma ids_of_day_strings today l :
  forallb has_string_id l = true ->
  ids_of_day today l = Return (id_values (of_day today l)).
Proof.
  unfold id_values, of_day, has_string_id.
  induction l as [|e l IH]; simpl; [done|].
  intros H. apply andb_prop in H as [He Hl].
  apply bool_decide_eq_true in He as [i Hi].
  rewrite (entry_id_getitem e i Hi). simpl. rewrite IH by done. simpl.
  unfold id_of. rewrite Hi. simpl.
  destruct (String.prefix today i); simpl; [|done]. by rewrite Hi.
Qed.

(** [add_entry] on a dict whose entries have string ids. *)
Lemma add_entry_strings w f l entry_type content source metadata :
  dict_get "entries" f = Some (JArr l) ->
  forallb has_string_id l = true ->
  add_entry (JObj f) entry_type content source metadata w
  = (Return
       (JObj (dict_set "timestamp" (utc_stamp (now_of (tick (tick w))))
                (dict_set "entries"
                   (JArr (l ++ [made_entry
                                  (next_id (strftime_Ymd (now_of w)) l)
                                  entry_type content source
                                  (now_of (tick w)) metadata]))
                   f))),
     tick (tick (tick w))).
Proof.
  intros Hf Hl. unfold add_entry, bind, lift. simpl.
  rewrite Hf. simpl. rewrite ids_of_day_strings by done. simpl.
  unfold id_values. rewrite length_map. reflexivity.
Qed.

Lemma is_entry_has_string_id l :
  forallb is_entry l = true -> forallb has_string_id l = true.
Proof.
  rewrite !forallb_forall. intros H e He. unfold has_string_id.
  apply bool_decide_eq_true. rewrite (is_entry_id e) by auto. eauto.
Qed.

Lemma substring_0_length n s :
  String.length (String.substring 0 n s) = Nat.min n (String.length s).
Proof.
  revert n. induction s as [|c s IH]; intros [|n]; simpl; try done.
  by rewrite IH.
Qed.

Lemma substring_0_prefix n s : String.prefix (String.substring 0 n s) s = true.
Proof.
  revert n. induction s as [|c s IH]; intros [|n]; simpl; try done.
  destruct (ascii_dec c c); [apply IH|done].
Qed.

(** X12.  The 200 character limit: the content [add_entry] stores is the
    start of the content it was given, of length 200 or the whole of it
    when that is shorter. *)
Theorem add_entry_content_limit w f l entry_type content source metadata :
  dict_get "entries" f = Some (JArr l) ->
  forallb has_string_id l = true ->
  exists result e stored,
    add_entry (JObj f) entry_type content source metadata w
    = (Return result, tick (tick (tick w))) /\
    doc_entries result = Some (l ++ [e]) /\
    entry_content e = Some (JStr stored) /\
    String.prefix stored content = true /\
    String.length stored = Nat.min 200 (String.length content).
Proof.
  intros Hf Hl. eexists _, _, _. split; [by apply add_entry_strings|].
  split; [apply doc_entries_set_timestamp|]. split; [reflexivity|].
  split; [apply substring_0_prefix|apply substring_0_length].
Qed.

Lemma add_entry_content_limit_witness :
  exists result e stored,
    add_entry (JObj [("entries", JArr [])]) "note" "remember" "heron-01"
      None quiet
    = (Return result, tick (tick (tick quiet))) /\
    doc_entries result = Some ([] ++ [e]) /\
    entry_content e = Some (JStr stored) /\
    String.prefix stored "remember" = true /\
    String.length stored = Nat.min 200 (String.length "remember").
Proof.
  apply add_entry_content_limit; reflexivity.
Defined.

Lemma dict_get_absent k (d : list (string * json)) :
  k ∉ map fst d -> dict_get k d = None.
Proof.
  induction d as [|[k' v] d IH]; simpl; [done|]. intros H.
  apply not_elem_of_cons in H as [Hne H].
  destruct (String.eqb_spec k k'); [done|]. by apply IH.
Qed.

Lemma dict_get_update k a b :
  NoDup (map fst b) ->
  dict_get k (dict_update a b)
  = match dict_get k b with
    | Some v => Some v
    | None => dict_get k a
    end.
Proof.
  unfold dict_update. revert a.
  induction b as [|[k0 v0] b IH]; simpl; intros a Hb; [done|].
  apply NoDup_cons in Hb as [Hk0 Hb]. rewrite IH by done.
  destruct (String.eqb_spec k k0) as [->|Hne].
  - rewrite dict_get_absent by done. apply dict_get_set_eq.
  - destruct (dict_get k b); [done|]. by apply dict_get_set_ne.
Qed.

(** X13.  The metadata of the new entry: every item of the [metadata]
    argument is in it, and its [timestamp] is the time read from the
    clock unless the argument has a [timestamp] of its own, which then
    stands in its place. *)
Theorem add_entry_metadata w f l entry_type content source metadata :
  dict_get "entries" f = Some (JArr l) ->
  forallb has_string_id l = true ->
  NoDup (map fst (metadata_or_empty metadata)) ->
  exists result e m,
    add_entry (JObj f) entry_type content source metadata w
    = (Return result, tick (tick (tick w))) /\
    doc_entries result = Some (l ++ [e]) /\
    entry_metadata e = Some m /\
    (forall k v,
       dict_get k (metadata_or_empty metadata) = Some v ->
       dict_get k m = Some v) /\
    (dict_get "timestamp" (metadata_or_empty metadata) = None ->
     dict_get "timestamp" m
     = Some (JStr (isoformat (now_of (tick w)) +:+ "Z"))).
Proof.
  intros Hf Hl Hm. eexists _, _, _. split; [by apply add_entry_strings|].
  split; [apply doc_entries_set_timestamp|]. split; [reflexivity|]. split.
  - intros k v Hk. rewrite dict_get_update by done. by rewrite Hk.
  - intros Hk. rewrite dict_get_update by done. by rewrite Hk.
Qed.

Lemma add_entry_metadata_witness :
  let metadata := Some [("timestamp", JStr "1999-12-31T23:59:59Z");
                        ("mood", JStr "calm")] in
  exists result e m,
    add_entry (JObj [("entries", JArr [])]) "note" "remember" "heron-01"
      metadata quiet
    = (Return result, tick (tick (tick quiet))) /\
    doc_entries result = Some ([] ++ [e]) /\
    entry_metadata e = Some m /\
    (forall k v,
       dict_get k (metadata_or_empty metadata) = Some v ->
       dict_get k m = Some v) /\
    (dict_get "timestamp" (metadata_or_empty metadata) = None ->
     dict_get "timestamp" m
     = Some (JStr (isoformat (now_of (tick quiet)) +:+ "Z"))).
Proof.
  apply add_entry_metadata; try reflexivity.
  apply (bool_decide_unpack _). vm_compute. reflexivity.
Defined.

(** X14.  [add_entry] writes two fields of the document, [entries] and
    [timestamp]; every other field, the marker among them, is as it
    was. *)
Theorem add_entry_keeps_fields w f l entry_type content source metadata k :
  dict_get "entries" f = Some (JArr l) ->
  forallb has_string_id l = true ->
  k <> "entries" -> k <> "timestamp" ->
  exists result,
    add_entry (JObj f) entry_type content source metadata w
    = (Return result, tick (tick (tick w))) /\
    doc_field k result = doc_field k (JObj f) /\
    has_marker result = has_marker (JObj f).
Proof.
  intros Hf Hl Hk1 Hk2. eexists. split; [by apply add_entry_strings|].
  split; simpl; rewrite !dict_get_set_ne; done.
Qed.

Lemma add_entry_keeps_fields_witness :
  exists result,
    add_entry (sample_doc []) "note" "remember" "heron-01" None quiet
    = (Return result, tick (tick (tick quiet))) /\
    doc_field "version" result = doc_field "version" (sample_doc []) /\
    has_marker result = has_marker (sample_doc []).
Proof.
  apply (add_entry_keeps_fields _ _ []); try reflexivity; discriminate.
Defined.

Lemma prefix_append s t : String.prefix s (s +:+ t) = true.
Proof.
  induction s as [|c s IH]; simpl; [by destruct t|].
  by destruct (ascii_dec c c).
Qed.

Lemma append_cancel_l s a b : s +:+ a = s +:+ b -> a = b.
Proof.
  induction s as [|c s IH]; simpl; [done|]. intros [= H]. by apply IH.
Qed.

Lemma digits_value_step acc c s k :
  nat_of_ascii c = 48 + k -> k <= 9 ->
  digits_value acc (String c s) = digits_value (10 * acc + k) s.
Proof.
  intros Hc Hk. cbn [digits_value]. rewrite Hc.
  replace (48 <=? 48 + k)%nat with true by (symmetry; apply Nat.leb_le; lia).
  replace (48 + k <=? 57)%nat with true by (symmetry; apply Nat.leb_le; lia).
  cbn [andb]. do 2 f_equal. lia.
Qed.

Lemma digits_value_uint d : forall acc,
  digits_value acc (NilEmpty.string_of_uint d) = Some (Nat.of_uint_acc d acc).
Proof.
  induction d; intros acc; cbn [NilEmpty.string_of_uint Nat.of_uint_acc];
    [done|..];
    match goal with
    | |- digits_value _ (String ?c _) = _ =>
        rewrite (digits_value_step acc c _ (nat_of_ascii c - 48))
          by (vm_compute; auto with arith)
    end;
    rewrite IHd; do 2 f_equal; rewrite Nat.tail_mul_spec;
    vm_compute (nat_of_ascii _ - 48); lia.
Qed.

Lemma digits_value_zeros k s : digits_value 0 (zeros k +:+ s) = digits_value 0 s.
Proof.
  induction k as [|k IH]; [done|].
  change (zeros (S k) +:+ s) with (String "0" (zeros k +:+ s)).
  rewrite (digits_value_step 0 _ _ 0) by (vm_compute; auto with arith).
  exact IH.
Qed.

(** The number printed by [f"{n:0wd}"] reads back as [n]. *)
Lemma digits_value_fmt_d w n : digits_value 0 (fmt_d w n) = Some n.
Proof.
  unfold fmt_d, str_of_nat. rewrite digits_value_zeros.
  unfold NilZero.string_of_uint.
  rewrite <- (Unsigned.of_to n) at 2. unfold Nat.of_uint.
  destruct (Nat.to_uint n) eqn:E; try (rewrite <- E; apply digits_value_uint).
  reflexivity.
Qed.

Lemma fmt_d_inj w n m : fmt_d w n = fmt_d w m -> n = m.
Proof.
  intros H. pose proof (digits_value_fmt_d w n) as Hn.
  rewrite H, digits_value_fmt_d in Hn. congruence.
Qed.

Lemma of_day_snoc today l e :
  String.prefix today (id_of e) = true ->
  length (of_day today (l ++ [e])) = length (of_day today l) + 1.
Proof.
  intros H. unfold of_day. rewrite List.filter_app, length_app. simpl.
  by rewrite H.
Qed.

(** X15.  Two appends in a row on the same UTC day: the second entry is
    numbered one above the first, and the two ids differ. *)
Theorem add_entry_twice w f l t1 c1 s1 m1 t2 c2 s2 m2 :
  dict_get "entries" f = Some (JArr l) ->
  forallb has_string_id l = true ->
  strftime_Ymd (now_of (tick (tick (tick w)))) = strftime_Ymd (now_of w) ->
  let today := strftime_Ymd (now_of w) in
  let n := length (of_day today l) in
  exists first second e1 e2,
    add_entry (JObj f) t1 c1 s1 m1 w
    = (Return first, tick (tick (tick w))) /\
    add_entry first t2 c2 s2 m2 (tick (tick (tick w)))
    = (Return second, tick (tick (tick (tick (tick (tick w)))))) /\
    doc_entries second = Some (l ++ [e1; e2]) /\
    entry_id e1 = Some (today +:+ "-" +:+ fmt_d 3 (n + 1)) /\
    entry_id e2 = Some (today +:+ "-" +:+ fmt_d 3 (n + 2)) /\
    entry_id e1 <> entry_id e2.
Proof.
  intros Hf Hl Hday today n.
  set (e1 := made_entry (next_id today l) t1 c1 s1 (now_of (tick w)) m1).
  assert (forallb has_string_id (l ++ [e1]) = true) as Hl1.
  { rewrite forallb_app, Hl. reflexivity. }
  assert (length (of_day today (l ++ [e1])) = n + 1) as Hn.
  { apply of_day_snoc. apply prefix_append. }
  eexists _, _, e1, _. split; [by apply add_entry_strings|].
  split.
  { apply add_entry_strings; [|exact Hl1].
    rewrite dict_get_set_ne by done. apply dict_get_set_eq. }
  rewrite Hday. fold today.
  split.
  { rewrite doc_entries_set_timestamp.
    rewrite <- app_assoc. reflexivity. }
  split; [reflexivity|]. split.
  { simpl. unfold next_id. rewrite Hn.
    by replace (n + 1 + 1) with (n + 2) by lia. }
  simpl. unfold next_id. rewrite Hn. intros [= H].
  apply append_cancel_l in H. apply (append_cancel_l "-"), fmt_d_inj in H.
  unfold n in H. lia.
Qed.

Lemma add_entry_twice_witness :
  let today := strftime_Ymd (now_of quiet) in
  let n := length (of_day today []) in
  exists first second e1 e2,
    add_entry (JObj [("entries", JArr [])]) "note" "one" "heron-01" None quiet
    = (Return first, tick (tick (tick quiet))) /\
    add_entry first "note" "two" "heron-01" None (tick (tick (tick quiet)))
    = (Return second,
       tick (tick (tick (tick (tick (tick quiet)))))) /\
    doc_entries second = Some ([] ++ [e1; e2]) /\
    entry_id e1 = Some (today +:+ "-" +:+ fmt_d 3 (n + 1)) /\
    entry_id e2 = Some (today +:+ "-" +:+ fmt_d 3 (n + 2)) /\
    entry_id e1 <> entry_id e2.
Proof.
  apply add_entry_twice; reflexivity.
Defined.

(** ** Whole runs *)

(** [save_memory] changes files only: the result is the world it
    started in with other files. *)
Lemma save_memory_world w memory path :
  exists b fs, save_memory memory path w = (Return b, with_files w fs).
Proof.
  destruct w as [fs flt clk t].
  unfold save_memory, os_path_exists, os_rename, write_json, syscall_check,
    try_except, ret, bind, with_files. simpl.
  destruct (fs !! path) as [old|] eqn:E; simpl.
  - destruct (flt (SysRename path (path +:+ ".backup"))); simpl;
      [by eexists _, _|].
    rewrite E. simpl.
    destruct (flt (SysOpenWrite path)); simpl; [by eexists _, _|].
    destruct (flt (SysWrite path)); simpl; by eexists _, _.
  - destruct (flt (SysOpenWrite path)); simpl; [by eexists _, _|].
    destruct (flt (SysWrite path)); simpl; by eexists _, _.
Qed.

(** A save over an existing file when nothing fails. *)
Lemma save_memory_over w memory path old :
  files w !! path = Some old ->
  fault w (SysRename path (path +:+ ".backup")) = None ->
  fault w (SysOpenWrite path) = None ->
  fault w (SysWrite path) = None ->
  exists fs,
    save_memory memory path w = (Return true, with_files w fs) /\
    fs !! path = Some (JsonText memory) /\
    fs !! (path +:+ ".backup") = Some old.
Proof.
  intros E Hn Ho Hw. pose proof (backup_path_fresh path) as Hne.
  destruct w as [fs flt clk t]. simpl in *.
  unfold save_memory, os_path_exists, os_rename, write_json, syscall_check,
    try_except, ret, bind, with_files. simpl.
  rewrite E. simpl. rewrite Hn. simpl. rewrite E. simpl.
  rewrite Ho. simpl. rewrite Hw. eexists. split; [reflexivity|].
  split; [apply lookup_insert_eq|].
  assert (path <> path +:+ ".backup") as Hne' by congruence.
  rewrite lookup_insert_ne by done. simpl.
  rewrite lookup_insert_ne by done. apply lookup_insert_eq.
Qed.

(** A save where no file is when nothing fails. *)
Lemma save_memory_new w memory path :
  files w !! path = None ->
  fault w (SysOpenWrite path) = None ->
  fault w (SysWrite path) = None ->
  exists fs,
    save_memory memory path w = (Return true, with_files w fs) /\
    fs !! path = Some (JsonText memory) /\
    fs !! (path +:+ ".backup") = files w !! (path +:+ ".backup").
Proof.
  intros E Ho Hw. pose proof (backup_path_fresh path) as Hne.
  destruct w as [fs flt clk t]. simpl in *.
  unfold save_memory, os_path_exists, os_rename, write_json, syscall_check,
    try_except, ret, bind, with_files. simpl.
  rewrite E. simpl. rewrite Ho. simpl. rewrite Hw.
  eexists. split; [reflexivity|].
  split; [apply lookup_insert_eq|].
  assert (path <> path +:+ ".backup") as Hne' by congruence.
  rewrite lookup_insert_ne by done. simpl. by rewrite lookup_insert_ne.
Qed.

(** What [sync_with_remote] does once [load_memory] has returned a
    dict whose entries have string ids: it adds its entry and saves. *)
Lemma sync_with_remote_loaded w path url source f l :
  load_memory path w = (Return (Some (JObj f)), w) ->
  dict_get "entries" f = Some (JArr l) ->
  forallb has_string_id l = true ->
  sync_with_remote path url source w
  = save_memory
      (JObj (dict_set "timestamp" (utc_stamp (now_of (tick (tick w))))
               (dict_set "entries"
                  (JArr (l ++ [sync_entry (next_id (strftime_Ymd (now_of w)) l)
                                 url source (now_of (tick w))]))
                  f)))
      path (tick (tick (tick w))).
Proof.
  intros Hload Hf Hl.
  unfold sync_with_remote. unfold bind at 1 2 3. rewrite Hload.
  unfold ret at 1. cbv beta iota. unfold bind at 1.
  rewrite (add_entry_strings w f l) by done. unfold bind.
  match goal with
  | |- _ = save_memory ?m ?p ?w' =>
      destruct (save_memory_returns w' m p) as (b & w'' & Hs)
  end.
  unfold sync_entry in *. rewrite Hs. by destruct b.
Qed.

Lemma save_memory_open_fails w memory path old e :
  files w !! path = Some old ->
  fault w (SysRename path (path +:+ ".backup")) = None ->
  fault w (SysOpenWrite path) = Some e ->
  exists fs,
    save_memory memory path w = (Return false, with_files w fs) /\
    fs !! path = None /\
    fs !! (path +:+ ".backup") = Some old.
Proof.
  intros E Hn Ho. pose proof (backup_path_fresh path) as Hne.
  destruct w as [fs flt clk t]. simpl in *.
  unfold save_memory, os_path_exists, os_rename, write_json, syscall_check,
    try_except, ret, bind, with_files. simpl.
  rewrite E. simpl. rewrite Hn. simpl. rewrite E. simpl. rewrite Ho. simpl.
  eexists. split; [reflexivity|]. split.
  - rewrite lookup_insert_ne by done. apply lookup_delete_eq.
  - apply lookup_insert_eq.
Qed.

(** X16.  The first run: with no file at the path and nothing failing,
    [sync_with_remote] returns [True] and leaves at the path a document
    with the marker and one entry, numbered 001 for the day, that records
    the attempt; no backup is made. *)
Theorem sync_with_remote_first_run w path url source :
  files w !! path = None -> unfailing w path ->
  exists fs saved,
    sync_with_remote path url source w
    = (Return true, with_files (tick (tick (tick (tick w)))) fs) /\
    fs !! path = Some (JsonText saved) /\
    fs !! (path +:+ ".backup") = files w !! (path +:+ ".backup") /\
    has_marker saved = true /\
    doc_entries saved
    = Some [sync_entry (strftime_Ymd (now_of (tick w)) +:+ "-001") url source
              (now_of (tick (tick w)))].
Proof.
  intros E (Hr & _ & Ho & Hw).
  destruct (sync_with_remote_fresh w path url source) as (_ & _ & Hsync).
  { apply load_memory_unreadable; auto. }
  rewrite Hsync.
  match goal with
  | |- context [save_memory ?m path ?w'] =>
      destruct (save_memory_new w' m path E Ho Hw) as (fs & Hs & Hp & Hb)
  end.
  eexists fs, _. split; [exact Hs|]. split; [exact Hp|].
  split; [exact Hb|]. split; reflexivity.
Qed.

Lemma sync_with_remote_first_run_witness :
  exists fs saved,
    sync_with_remote "memory.json" "https://example.org/memory" "heron-02"
      quiet
    = (Return true, with_files (tick (tick (tick (tick quiet)))) fs) /\
    fs !! "memory.json" = Some (JsonText saved) /\
    fs !! ("memory.json" +:+ ".backup")
    = files quiet !! ("memory.json" +:+ ".backup") /\
    has_marker saved = true /\
    doc_entries saved
    = Some [sync_entry (strftime_Ymd (now_of (tick quiet)) +:+ "-001")
              "https://example.org/memory" "heron-02"
              (now_of (tick (tick quiet)))].
Proof.
  apply sync_with_remote_first_run; [reflexivity|repeat split].
Defined.

(** X17.  A file that [load_memory] turns down (malformed JSON, or an object
    without the right marker) is not lost when nothing fails: the sync
    moves it to the backup path and writes a new document with its one
    entry in its place. *)
Theorem sync_with_remote_replaces_rejected w path url source old :
  files w !! path = Some old ->
  load_memory path w = (Return None, w) ->
  unfailing w path ->
  exists fs saved,
    sync_with_remote path url source w
    = (Return true, with_files (tick (tick (tick (tick w)))) fs) /\
    fs !! path = Some (JsonText saved) /\
    fs !! (path +:+ ".backup") = Some old /\
    has_marker saved = true /\
    doc_entries saved
    = Some [sync_entry (strftime_Ymd (now_of (tick w)) +:+ "-001") url source
              (now_of (tick (tick w)))].
Proof.
  intros E Hload (_ & Hn & Ho & Hw).
  destruct (sync_with_remote_fresh w path url source Hload) as (_ & _ & Hsync).
  rewrite Hsync.
  match goal with
  | |- context [save_memory ?m path ?w'] =>
      destruct (save_memory_over w' m path old E Hn Ho Hw)
        as (fs & Hs & Hp & Hb)
  end.
  eexists fs, _. split; [exact Hs|]. split; [exact Hp|].
  split; [exact Hb|]. split; reflexivity.
Qed.

Lemma sync_with_remote_replaces_rejected_witness :
  let old := JsonText (JObj [("campbell_motto", JStr "Forget");
                             ("entries", JArr [])]) in
  let w := with_files quiet {["memory.json" := old]} in
  exists fs saved,
    sync_with_remote "memory.json" "https://example.org/memory" "heron-02" w
    = (Return true, with_files (tick (tick (tick (tick w)))) fs) /\
    fs !! "memory.json" = Some (JsonText saved) /\
    fs !! ("memory.json" +:+ ".backup") = Some old /\
    has_marker saved = true /\
    doc_entries saved
    = Some [sync_entry (strftime_Ymd (now_of (tick w)) +:+ "-001")
              "https://example.org/memory" "heron-02"
              (now_of (tick (tick w)))].
Proof.
  apply sync_with_remote_replaces_rejected; [reflexivity|reflexivity|].
  repeat split.
Defined.

(** X18.  A later run: on a document with the marker, when nothing fails,
    [sync_with_remote] returns [True]; the file then holds the document
    with its entries kept, in order, and the sync entry after them, and
    the backup holds the document as it was. *)
Theorem sync_with_remote_appends w path url source f l :
  files w !! path = Some (JsonText (JObj f)) ->
  has_marker (JObj f) = true ->
  dict_get "entries" f = Some (JArr l) ->
  forallb has_string_id l = true ->
  unfailing w path ->
  exists fs saved,
    sync_with_remote path url source w
    = (Return true, with_files (tick (tick (tick w))) fs) /\
    fs !! path = Some (JsonText saved) /\
    fs !! (path +:+ ".backup") = Some (JsonText (JObj f)) /\
    has_marker saved = true /\
    doc_entries saved
    = Some (l ++ [sync_entry (next_id (strftime_Ymd (now_of w)) l) url source
                    (now_of (tick w))]).
Proof.
  intros E Hm Hf Hl (Hr & Hn & Ho & Hw).
  rewrite (sync_with_remote_loaded w path url source f l); [|
    rewrite (load_memory_object w path f) by done; by rewrite Hm|done|done].
  match goal with
  | |- context [save_memory ?m path ?w'] =>
      destruct (save_memory_over w' m path _ E Hn Ho Hw)
        as (fs & Hs & Hp & Hb)
  end.
  eexists fs, _. split; [exact Hs|]. split; [exact Hp|].
  split; [exact Hb|]. split.
  - simpl in Hm |- *. rewrite !dict_get_set_ne by done. exact Hm.
  - apply doc_entries_set_timestamp.
Qed.

Lemma sync_with_remote_appends_witness :
  let l := [sample_entry "20260212-001" "2026-02-12T08:00:00Z"] in
  let w := with_files quiet {["memory.json" := JsonText (sample_doc l)]} in
  exists fs saved,
    sync_with_remote "memory.json" "https://example.org/memory" "heron-02" w
    = (Return true, with_files (tick (tick (tick w))) fs) /\
    fs !! "memory.json" = Some (JsonText saved) /\
    fs !! ("memory.json" +:+ ".backup") = Some (JsonText (sample_doc l)) /\
    has_marker saved = true /\
    doc_entries saved
    = Some (l ++ [sync_entry (next_id (strftime_Ymd (now_of w)) l)
                    "https://example.org/memory" "heron-02"
                    (now_of (tick w))]).
Proof.
  apply sync_with_remote_appends; try reflexivity. repeat split.
Defined.

(** X19.  A run whose write cannot be opened: [sync_with_remote] returns
    [False], and the document is no longer at the path; it is at the
    backup path, as it was before the run. *)
Theorem sync_with_remote_write_fails w path url source f l e :
  files w !! path = Some (JsonText (JObj f)) ->
  has_marker (JObj f) = true ->
  dict_get "entries" f = Some (JArr l) ->
  forallb has_string_id l = true ->
  fault w (SysRead path) = None ->
  fault w (SysRename path (path +:+ ".backup")) = None ->
  fault w (SysOpenWrite path) = Some e ->
  exists fs,
    sync_with_remote path url source w
    = (Return false, with_files (tick (tick (tick w))) fs) /\
    fs !! path = None /\
    fs !! (path +:+ ".backup") = Some (JsonText (JObj f)).
Proof.
  intros E Hm Hf Hl Hr Hn Ho.
  rewrite (sync_with_remote_loaded w path url source f l); [|
    rewrite (load_memory_object w path f) by done; by rewrite Hm|done|done].
  match goal with
  | |- context [save_memory ?m path ?w'] =>
      destruct (save_memory_open_fails w' m path _ e E Hn Ho)
        as (fs & Hs & Hp & Hb)
  end.
  by exists fs.
Qed.

Lemma sync_with_remote_write_fails_witness :
  let w :=
    failing (opens_for_writing "memory.json") PermissionError
      (with_files quiet {["memory.json" := JsonText (sample_doc [])]}) in
  exists fs,
    sync_with_remote "memory.json" "https://example.org/memory" "heron-02" w
    = (Return false, with_files (tick (tick (tick w))) fs) /\
    fs !! "memory.json" = None /\
    fs !! ("memory.json" +:+ ".backup") = Some (JsonText (sample_doc [])).
Proof.
  apply (sync_with_remote_write_fails _ _ _ _ _ [] PermissionError);
    reflexivity.
Defined.

(** X20.  Two runs in a row on the same UTC day, starting without a file and
    with nothing failing: both return [True]; the file ends with the two
    sync entries, numbered 001 and 002, and the backup holds the document
    the first run wrote. *)
Theorem sync_with_remote_twice w path url source :
  files w !! path = None -> unfailing w path ->
  strftime_Ymd (now_of (tick (tick (tick (tick w)))))
  = strftime_Ymd (now_of (tick w)) ->
  let today := strftime_Ymd (now_of (tick w)) in
  exists w1 w2 first second e1 e2,
    sync_with_remote path url source w = (Return true, w1) /\
    files w1 !! path = Some (JsonText first) /\
    sync_with_remote path url source w1 = (Return true, w2) /\
    files w2 !! path = Some (JsonText second) /\
    files w2 !! (path +:+ ".backup") = Some (JsonText first) /\
    doc_entries first = Some [e1] /\
    doc_entries second = Some [e1; e2] /\
    entry_id e1 = Some (today +:+ "-001") /\
    entry_id e2 = Some (today +:+ "-002").
Proof.
  intros E (Hr & Hn & Ho & Hw) Hday today.
  destruct (sync_with_remote_fresh w path url source) as (_ & _ & Hsync).
  { apply load_memory_unreadable; auto. }
  match type of Hsync with
  | _ = save_memory ?m path ?w' =>
      destruct (save_memory_new w' m path E Ho Hw) as (fs1 & Hs1 & Hp1 & _);
      set (first := m) in *; set (w1 := with_files w' fs1) in *
  end.
  set (e1 := sync_entry (today +:+ "-001") url source (now_of (tick (tick w)))).
  assert (exists f1, first = JObj f1 /\
                     dict_get "entries" f1 = Some (JArr [e1]))
    as (f1 & Ef1 & Hf1) by (eexists; split; reflexivity).
  assert (load_memory path w1 = (Return (Some (JObj f1)), w1)) as Hload.
  { rewrite (load_memory_object w1 path f1); [by rewrite <- Ef1|exact Hr|].
    rewrite <- Ef1. exact Hp1. }
  pose proof (sync_with_remote_loaded w1 path url source f1 [e1] Hload Hf1
                eq_refl) as Hsync2.
  match type of Hsync2 with
  | _ = save_memory ?m path ?w' =>
      destruct (save_memory_over w' m path (JsonText first)
                  Hp1 Hn Ho Hw) as (fs2 & Hs2 & Hp2 & Hb2);
      set (second := m) in *; set (w2 := with_files w' fs2) in *
  end.
  exists w1, w2, first, second, e1.
  eexists. split; [by rewrite Hsync|]. split; [exact Hp1|].
  split; [by rewrite Hsync2|]. split; [exact Hp2|]. split; [exact Hb2|].
  split; [reflexivity|]. split; [apply doc_entries_set_timestamp|].
  split; [reflexivity|].
  change (now_of w1) with (now_of (tick (tick (tick (tick w))))).
  rewrite Hday. fold today. unfold sync_entry, made_entry, entry_id.
  cbn [dict_get String.eqb Ascii.eqb Bool.eqb]. unfold next_id, of_day.
  cbn [List.filter]. unfold id_of at 1.
  change (entry_id e1) with (Some (today +:+ "-001")). cbn [default].
  unfold id. rewrite prefix_append. reflexivity.
Qed.

Lemma sync_with_remote_twice_witness :
  let today := strftime_Ymd (now_of (tick quiet)) in
  exists w1 w2 first second e1 e2,
    sync_with_remote "memory.json" "https://example.org/memory" "heron-02"
      quiet = (Return true, w1) /\
    files w1 !! "memory.json" = Some (JsonText first) /\
    sync_with_remote "memory.json" "https://example.org/memory" "heron-02" w1
    = (Return true, w2) /\
    files w2 !! "memory.json" = Some (JsonText second) /\
    files w2 !! ("memory.json" +:+ ".backup") = Some (JsonText first) /\
    doc_entries first = Some [e1] /\
    doc_entries second = Some [e1; e2] /\
    entry_id e1 = Some (today +:+ "-001") /\
    entry_id e2 = Some (today +:+ "-002").
Proof.
  apply sync_with_remote_twice; [reflexivity|repeat split|reflexivity].
Defined.

(** ** The command line *)

(** X21.  With fewer than two arguments after the program name, [main] ends
    with status 1 and has touched nothing: no file is read or written and
    the clock is not read. *)
Theorem main_usage argv w :
  length argv < 3 -> main argv w = (Return 1, w).
Proof.
  intros H. unfold main.
  by replace (Nat.ltb (length argv) 3) with true
    by (symmetry; apply Nat.ltb_lt; lia).
Qed.

Lemma main_usage_witness :
  main ["memory_sync.py"; "memory.json"] quiet = (Return 1, quiet).
Proof.
  apply main_usage. simpl. lia.
Defined.

(** X22.  A first run from the command line when nothing fails: [main] ends
    with status 0 and the file holds one entry, whose source is the
    third argument when there is one and ["heron-local"] otherwise;
    arguments after the third are ignored. *)
Theorem main_first_run w prog path url rest :
  files w !! path = None -> unfailing w path ->
  exists fs saved e,
    main (prog :: path :: url :: rest) w
    = (Return 0, with_files (tick (tick (tick (tick w)))) fs) /\
    fs !! path = Some (JsonText saved) /\
    doc_entries saved = Some [e] /\
    doc_field "source" e = Some (JStr (hd "heron-local" rest)) /\
    doc_field "content" e
    = Some (JStr (String.substring 0 200
                    ("Memory sync attempted with " +:+ url))).
Proof.
  intros E (Hr & _ & Ho & Hw).
  set (source := hd "heron-local" rest).
  assert (main (prog :: path :: url :: rest) w
          = (success <- sync_with_remote path url source ;;
             ret (if (success : bool) then 0 else 1)) w) as ->.
  { unfold main, source. by destruct rest. }
  destruct (sync_with_remote_fresh w path url source) as (_ & _ & Hsync).
  { apply load_memory_unreadable; auto. }
  unfold bind. rewrite Hsync.
  match goal with
  | |- context [save_memory ?m path ?w'] =>
      destruct (save_memory_new w' m path E Ho Hw) as (fs & Hs & Hp & _)
  end.
  rewrite Hs. eexists fs, _, _. split; [reflexivity|]. split; [exact Hp|].
  repeat split.
Qed.

Lemma main_first_run_witness :
  exists fs saved e,
    main ["memory_sync.py"; "memory.json"; "https://example.org/memory"] quiet
    = (Return 0, with_files (tick (tick (tick (tick quiet)))) fs) /\
    fs !! "memory.json" = Some (JsonText saved) /\
    doc_entries saved = Some [e] /\
    doc_field "source" e = Some (JStr (hd "heron-local" [])) /\
    doc_field "content" e
    = Some (JStr (String.substring 0 200
                    ("Memory sync attempted with "
                     +:+ "https://example.org/memory"))).
Proof.
  apply main_first_run; [reflexivity|repeat split].
Defined.

(** X23.  When the file cannot be opened for writing, [main] ends with
    status 1; on a first run nothing has been written. *)
Theorem main_save_fails w prog path url rest e :
  files w !! path = None ->
  fault w (SysRead path) = None ->
  fault w (SysOpenWrite path) = Some e ->
  main (prog :: path :: url :: rest) w
  = (Return 1, tick (tick (tick (tick w)))).
Proof.
  intros E Hr Ho.
  set (source := hd "heron-local" rest).
  assert (main (prog :: path :: url :: rest) w
          = (success <- sync_with_remote path url source ;;
             ret (if (success : bool) then 0 else 1)) w) as ->.
  { unfold main, source. by destruct rest. }
  destruct (sync_with_remote_fresh w path url source) as (_ & _ & Hsync).
  { apply load_memory_unreadable; auto. }
  unfold bind. rewrite Hsync.
  destruct w as [fs flt clk t]. simpl in *.
  unfold save_memory, os_path_exists, os_rename, write_json, syscall_check,
    try_except, ret, bind, tick. simpl.
  rewrite E. simpl. by rewrite Ho.
Qed.

Lemma main_save_fails_witness :
  let w := failing (opens_for_writing "memory.json") PermissionError quiet in
  main ["memory_sync.py"; "memory.json"; "https://example.org/memory"] w
  = (Return 1, tick (tick (tick (tick w)))).
Proof.
  apply (main_save_fails _ _ _ _ _ PermissionError); reflexivity.
Defined.

(** ** Every outcome of [load_memory] *)

(** X1.  What [load_memory] does, case by case.  A missing file and a file
    that is not JSON give [None]; an object gives itself when its
    [campbell_motto] is the motto and [None] otherwise; any other JSON
    value raises [AttributeError]; and of the errors of opening and
    reading only [FileNotFoundError] and [JSONDecodeError] become
    [None], the others are raised.  The world is left as it was. *)
Theorem load_memory_outcomes w path :
  load_memory path w
  = (match fault w (SysRead path) with
     | Some FileNotFoundError | Some JSONDecodeError => Return None
     | Some e => Raise e
     | None =>
         match files w !! path with
         | None | Some Malformed => Return None
         | Some (JsonText (JObj f)) =>
             Return (if has_marker (JObj f) then Some (JObj f) else None)
         | Some (JsonText _) => Raise AttributeError
         end
     end, w).
Proof.
  destruct (fault w (SysRead path)) as [e|] eqn:Hr.
  - unfold load_memory, read_json, syscall_check, try_except, lift, ret, bind.
    simpl. rewrite Hr. by destruct e.
  - destruct (files w !! path) as [[|v]|] eqn:Hf.
    + apply load_memory_unreadable; auto.
    + destruct v as [| | | | |f];
        try (eapply load_memory_value; [exact Hr|exact Hf|reflexivity]).
      by apply load_memory_object.
    + apply load_memory_unreadable; auto.
Qed.

(** ** A remote that is no dict *)

(** X11.  A remote that is not a dict ([None], a list, a string, a number)
    makes [merge_memories] raise [AttributeError] at [remote.get],
    after the local ids are collected and before anything is appended or
    the clock is read. *)
Theorem merge_memories_remote_not_object w local remote :
  is_document local = true ->
  is_object remote = false ->
  merge_memories local remote w = (Raise AttributeError, w).
Proof.
  intros Hl Hr.
  destruct (is_document_inv _ Hl) as (f & l & -> & Hf & _ & Hle).
  unfold merge_memories, lift, bind. simpl. rewrite Hf. simpl.
  rewrite collect_ids_entries by done. by destruct remote.
Qed.

Lemma merge_memories_remote_not_object_witness :
  merge_memories
    (sample_doc [sample_entry "20260212-001" "2026-02-12T08:00:00Z"])
    JNull quiet
  = (Raise AttributeError, quiet).
Proof.
  apply merge_memories_remote_not_object; reflexivity.
Defined.
